(** * pheeno_ros: the PheenoRobot sensor state and its obstacle-avoidance logic

    A shallow embedding of [src/pheeno_robot.cpp].  The robot object is a
    record, the member functions are functions on it, the two reference
    parameters [linear] and [angular] of the avoidance members are passed in
    and returned, and the state of the C library's [rand()] is threaded
    explicitly.  C++ [double] is IEEE 754 binary64, taken from the Standard
    Library's [SpecFloat]. *)

From Stdlib Require Import ZArith Bool List Lia.
From Stdlib Require Import SpecFloat.
From stdpp Require Import base list.

Open Scope Z_scope.

(** ** C++ [double] *)

Definition prec : Z := 53.
Definition emax : Z := 1024.

(** A [double] is a [spec_float]; [is_double] tells the values that are
    binary64 numbers from the other inhabitants of [spec_float]. *)
Definition double : Type := spec_float.

Definition is_double (x : double) : bool := valid_binary prec emax x.

Definition dlt (x y : double) : bool := SFltb x y.
Definition dle (x y : double) : bool := SFleb x y.
Definition deq (x y : double) : bool := SFeqb x y.
Definition dsub (x y : double) : double := SFsub prec emax x y.
Definition dmul (x y : double) : double := SFmul prec emax x y.
Definition ddiv (x y : double) : double := SFdiv prec emax x y.
Definition dabs (x : double) : double := SFabs x.
Definition dopp (x : double) : double := SFopp x.

(** The integer [n] as a double (exact for the small integers used below). *)
Definition d_of_Z (n : Z) : double := binary_normalize prec emax n 0 false.

(** The literals of the source: [0], [0.0], [0.5], [5.0], [-1.0]. *)
Definition d_zero : double := S754_zero false.
Definition d_half : double := S754_finite false 4503599627370496 (-53).
Definition d_five : double := S754_finite false 5629499534213120 (-50).
Definition d_neg_one : double := S754_finite true 4503599627370496 (-52).

Declare Scope double_scope.
Delimit Scope double_scope with D.
Bind Scope double_scope with double.
Infix "<?" := dlt : double_scope.
Infix "<=?" := dle : double_scope.
Infix "-" := dsub : double_scope.
Infix "*" := dmul : double_scope.

(** ** The C library's [rand()]

    The generator is deterministic: its seed fixes the whole sequence of
    values it will return.  Its state is that sequence together with the
    number of values drawn so far. *)

Record rand_state : Type := {
  rand_seq : nat -> Z;
  rand_pos : nat
}.

Definition rand (g : rand_state) : Z * rand_state :=
  (rand_seq g (rand_pos g),
   {| rand_seq := rand_seq g; rand_pos := S (rand_pos g) |}).

(** ** The IR channels *)

Inductive IR : Type := CENTER | RIGHT | LEFT | CRIGHT | CLEFT | BACK.

Definition all_IR : list IR := [CENTER; RIGHT; LEFT; CRIGHT; CLEFT; BACK].

(** Modelled from the spec: the enumerators of [Pheeno::IR] are declared in
    [pheeno_ros/pheeno_robot.h], which is not among the sources.  The spec
    lists the six slots in this order.  The functions below take the
    numbering as a parameter; this one instantiates them. *)
Definition spec_IR_index (c : IR) : nat :=
  match c with
  | CENTER => 0 | RIGHT => 1 | LEFT => 2 | CRIGHT => 3 | CLEFT => 4 | BACK => 5
  end%nat.

(** ** The robot object *)

(** The members read or written by the functions modelled here.  The
    odometry, encoder and IMU vectors and the ROS handles take no part in
    them. *)
Record PheenoRobot : Type := {
  ir_sensor_vals_ : list double;
  def_linear_vel_ : double;
  def_angular_vel_ : double;
  obs_linear_vel_ : double;
  obs_angular_vel_ : double;
  linear_vel_ : double;
  angular_vel_ : double
}.

(** The four entries of the parameter server consulted by the constructor
    ([hasParam] / [getParam]); [None] is an absent entry. *)
Record rosparams : Type := {
  default_linear_velocity : option double;
  default_angular_velocity : option double;
  obstacle_linear_velocity : option double;
  obstacle_angular_velocity : option double
}.

Definition no_rosparams : rosparams :=
  {| default_linear_velocity := None; default_angular_velocity := None;
     obstacle_linear_velocity := None; obstacle_angular_velocity := None |}.

(** [for (int i = 0; i < n; i++) v.push_back(x);] *)
Fixpoint push_back_n (n : nat) (x : double) (v : list double) : list double :=
  match n with
  | O => v
  | S n' => push_back_n n' x (v ++ [x])
  end.

(** [PheenoRobot::PheenoRobot] *)
Definition PheenoRobot_init (p : rosparams) : PheenoRobot :=
  let def_linear := default d_half (default_linear_velocity p) in
  let def_angular := default d_half (default_angular_velocity p) in
  {| ir_sensor_vals_ := push_back_n 6 d_zero [];
     def_linear_vel_ := def_linear;
     def_angular_vel_ := def_angular;
     obs_linear_vel_ := default d_half (obstacle_linear_velocity p);
     obs_angular_vel_ := default d_half (obstacle_angular_velocity p);
     linear_vel_ := def_linear;
     angular_vel_ := def_angular |}.

(** The size the constructor gives [ir_sensor_vals_], kept by every member. *)
Definition six_slots (r : PheenoRobot) : Prop :=
  length (ir_sensor_vals_ r) = 6%nat.

(** [PheenoRobot::irSensorCallback]: [msg->data] arrives as a [float] and is
    widened, exactly, to the double [data].  The subscribers bind
    [ir_location] to an enumerator of [Pheeno::IR]; at an index outside the
    vector the C++ assignment is undefined and the model leaves the vector
    as it is. *)
Definition irSensorCallback (r : PheenoRobot) (data : double) (ir_location : nat)
  : PheenoRobot :=
  {| ir_sensor_vals_ := <[ir_location := data]> (ir_sensor_vals_ r);
     def_linear_vel_ := def_linear_vel_ r;
     def_angular_vel_ := def_angular_vel_ r;
     obs_linear_vel_ := obs_linear_vel_ r;
     obs_angular_vel_ := obs_angular_vel_ r;
     linear_vel_ := linear_vel_ r;
     angular_vel_ := angular_vel_ r |}.

(** [PheenoRobot::setObstacleLinearVelocity] and
    [PheenoRobot::setObstacleAngularVelocity]: no validation. *)
Definition setObstacleLinearVelocity (r : PheenoRobot) (new_linear_velocity : double)
  : PheenoRobot :=
  {| ir_sensor_vals_ := ir_sensor_vals_ r;
     def_linear_vel_ := def_linear_vel_ r;
     def_angular_vel_ := def_angular_vel_ r;
     obs_linear_vel_ := new_linear_velocity;
     obs_angular_vel_ := obs_angular_vel_ r;
     linear_vel_ := linear_vel_ r;
     angular_vel_ := angular_vel_ r |}.

Definition setObstacleAngularVelocity (r : PheenoRobot) (new_angular_velocity : double)
  : PheenoRobot :=
  {| ir_sensor_vals_ := ir_sensor_vals_ r;
     def_linear_vel_ := def_linear_vel_ r;
     def_angular_vel_ := def_angular_vel_ r;
     obs_linear_vel_ := obs_linear_vel_ r;
     obs_angular_vel_ := new_angular_velocity;
     linear_vel_ := linear_vel_ r;
     angular_vel_ := angular_vel_ r |}.

(** [PheenoRobot::randomTurn] *)
Definition randomTurn (angular : double) (g : rand_state) : double * rand_state :=
  let '(n, g) := rand g in
  (if Z.rem n 10 + 1 <=? 5 then (d_neg_one * angular)%D else angular, g).

(** What an avoidance member leaves behind: the two reference parameters,
    the returned flag, and the generator. *)
Record avoid_result : Type := {
  linear : double;
  angular : double;
  obs_flag : bool;
  rng : rand_state
}.

(** What this translation unit takes from outside itself: the enumerator
    values of [Pheeno::IR], declared in the header, and the double that lies
    in memory directly behind the storage of [ir_sensor_vals_].  The latter
    is what [operator[]] yields when the index is [size()] or more, where
    the C++ standard leaves the read undefined. *)
Class Platform : Type := {
  IR_index : IR -> nat;
  past_the_end : double
}.

Section Members.

Context {P : Platform}.

(** [v[i]] on a [std::vector<double>] *)
Definition subscript (v : list double) (i : nat) : double :=
  default past_the_end (v !! i).

(** [ir_sensor_vals_[Pheeno::IR::c]] *)
Definition ir (r : PheenoRobot) (c : IR) : double :=
  subscript (ir_sensor_vals_ r) (IR_index c).

(** The indices visited by [for (int i = 0; i < 7; i++)]. *)
Definition irSensorTriggered_indices : list nat := seq 0 7.

(** [PheenoRobot::irSensorTriggered].  The [float] argument is widened to
    double for the comparison; [sensor_limit] is the widened value. *)
Definition irSensorTriggered (r : PheenoRobot) (sensor_limit : double) : bool :=
  let count :=
    fold_left
      (fun count i =>
         if (subscript (ir_sensor_vals_ r) i <? sensor_limit)%D
         then count + 1 else count)
      irSensorTriggered_indices 0 in
  if count >? 1 then true else false.

(** [PheenoRobot::avoidObstacleMove] *)
Definition avoidObstacleMove (r : PheenoRobot)
    (linear angular range_to_avoid : double) (g : rand_state) : avoid_result :=
  let obs_flag := false in
  let '(linear, angular, obs_flag, g) :=
    if (ir r CENTER <? range_to_avoid)%D then
      let '(linear, angular, g) :=
        if (dabs (ir r RIGHT - ir r LEFT) <? d_five)%D
           || ((range_to_avoid <? ir r RIGHT)%D && (range_to_avoid <? ir r LEFT)%D)
        then
          let linear := obs_linear_vel_ r in
          let '(angular, g) := randomTurn (obs_angular_vel_ r) g in
          (linear, angular, g)
        else (linear, angular, g) in
      let angular :=
        if (ir r RIGHT <? ir r LEFT)%D
        then (d_neg_one * obs_angular_vel_ r)%D
        else obs_angular_vel_ r in
      (linear, angular, true, g)
    else if (ir r CRIGHT <? range_to_avoid)%D && (ir r CLEFT <? range_to_avoid)%D then
      let '(angular, g) := randomTurn (obs_angular_vel_ r) g in
      (linear, angular, true, g)
    else if (ir r CRIGHT <? range_to_avoid)%D then
      (linear, (d_neg_one * obs_angular_vel_ r)%D, true, g)
    else if (ir r CLEFT <? range_to_avoid)%D then
      (linear, obs_angular_vel_ r, true, g)
    else if (ir r RIGHT <? range_to_avoid)%D then
      (linear, (d_neg_one * obs_angular_vel_ r)%D, true, g)
    else if (ir r LEFT <? range_to_avoid)%D then
      (linear, obs_angular_vel_ r, true, g)
    else (linear, angular, obs_flag, g) in
  let linear := if obs_flag then obs_linear_vel_ r else linear in
  {| linear := linear; angular := angular; obs_flag := obs_flag; rng := g |}.

(** [PheenoRobot::avoidObstacleStop] *)
Definition avoidObstacleStop (r : PheenoRobot)
    (linear angular range_to_avoid : double) (g : rand_state) : avoid_result :=
  let obs_flag := false in
  let '(linear, angular, obs_flag, g) :=
    if (ir r CENTER <? range_to_avoid)%D then
      let angular :=
        if (ir r RIGHT <? ir r LEFT)%D
        then (d_neg_one * obs_angular_vel_ r)%D
        else obs_angular_vel_ r in
      (linear, angular, true, g)
    else if (ir r CRIGHT <? range_to_avoid)%D && (ir r CLEFT <? range_to_avoid)%D then
      let '(angular, g) := randomTurn (obs_angular_vel_ r) g in
      (linear, angular, true, g)
    else if (ir r CRIGHT <? range_to_avoid)%D then
      (linear, (d_neg_one * obs_angular_vel_ r)%D, true, g)
    else if (ir r CLEFT <? range_to_avoid)%D then
      (linear, obs_angular_vel_ r, true, g)
    else if (ir r RIGHT <? range_to_avoid)%D then
      (linear, (d_neg_one * obs_angular_vel_ r)%D, true, g)
    else if (ir r LEFT <? range_to_avoid)%D then
      (linear, obs_angular_vel_ r, true, g)
    else (linear, angular, obs_flag, g) in
  let linear := if obs_flag then d_zero else linear in
  {| linear := linear; angular := angular; obs_flag := obs_flag; rng := g |}.

End Members.

(** ** The vocabulary of the specification *)

(** The number of elements of a vector that are strictly below the
    threshold. *)
Definition count_below (v : list double) (limit : double) : nat :=
  length (List.filter (fun x => (x <? limit)%D) v).

Section Vocabulary.

Context {P : Platform}.

(** A channel is tripped when it reads strictly below the threshold. *)
Definition tripped (r : PheenoRobot) (limit : double) (c : IR) : bool :=
  (ir r c <? limit)%D.

(** A channel reads at or above the threshold. *)
Definition at_or_above (r : PheenoRobot) (limit : double) (c : IR) : bool :=
  (limit <=? ir r c)%D.

(** The number of tripped channels among the six. *)
Definition count_tripped (r : PheenoRobot) (limit : double) : nat :=
  length (List.filter (tripped r limit) all_IR).

(** The number of tripped channels other than BACK. *)
Definition count_tripped_but_BACK (r : PheenoRobot) (limit : double) : nat :=
  length (List.filter (tripped r limit) [CENTER; RIGHT; LEFT; CRIGHT; CLEFT]).

(** Channel [c] is tripped and each of the other five reads at or above the
    threshold. *)
Definition only_tripped (r : PheenoRobot) (range : double) (c : IR) : Prop :=
  tripped r range c = true /\
  forall c', c' <> c -> at_or_above r range c' = true.

(** Two robots that agree on the five channels other than BACK and on the
    obstacle velocities: they differ in the BACK reading at most, as far as
    the avoidance members can see. *)
Definition same_but_BACK (r1 r2 : PheenoRobot) : Prop :=
  (forall c, c <> BACK -> ir r1 c = ir r2 c) /\
  obs_linear_vel_ r1 = obs_linear_vel_ r2 /\
  obs_angular_vel_ r1 = obs_angular_vel_ r2.

(** A numbering a header can give the enumerators of a six-slot vector:
    distinct values, all below six. *)
Definition numbering_ok : Prop :=
  (forall a b, IR_index a = IR_index b -> a = b) /\
  (forall c, (IR_index c < 6)%nat).

End Vocabulary.

(** The flank channels. *)
Definition flank (c : IR) : bool :=
  match c with
  | RIGHT | LEFT | CRIGHT | CLEFT => true
  | CENTER | BACK => false
  end.

(** The turn the priority table gives a single tripped flank channel:
    left ([-obstacle_angular], written [-1.0 * obs_angular_vel_] in the
    source) for CRIGHT and RIGHT, right for CLEFT and LEFT. *)
Definition priority_table (r : PheenoRobot) (c : IR) : double :=
  match c with
  | CRIGHT | RIGHT => (d_neg_one * obs_angular_vel_ r)%D
  | _ => obs_angular_vel_ r
  end.

(** ** Concrete states *)

(** The numbering of the spec, with the double [stray] behind the vector. *)
Definition spec_platform (stray : double) : Platform :=
  {| IR_index := spec_IR_index; past_the_end := stray |}.

Definition d_3 : double := Eval vm_compute in d_of_Z 3.
Definition d_5 : double := Eval vm_compute in d_of_Z 5.
Definition d_10 : double := Eval vm_compute in d_of_Z 10.
Definition d_20 : double := Eval vm_compute in d_of_Z 20.
Definition d_0_3 : double := Eval vm_compute in ddiv (d_of_Z 3) (d_of_Z 10).
Definition d_0_4 : double := Eval vm_compute in ddiv (d_of_Z 4) (d_of_Z 10).
Definition d_neg_half : double := Eval vm_compute in dopp d_half.

(** Behind the vector lies 20, or 5. *)
Definition platform_20 : Platform := spec_platform d_20.
Definition platform_5 : Platform := spec_platform d_5.

(** A robot built by the constructor, the two setters and six sensor
    callbacks, under the numbering of the spec. *)
Definition robot_reading (obs_linear obs_angular : double)
    (center right left cright cleft back : double) : PheenoRobot :=
  let r := PheenoRobot_init no_rosparams in
  let r := setObstacleLinearVelocity r obs_linear in
  let r := setObstacleAngularVelocity r obs_angular in
  let r := irSensorCallback r center (spec_IR_index CENTER) in
  let r := irSensorCallback r right (spec_IR_index RIGHT) in
  let r := irSensorCallback r left (spec_IR_index LEFT) in
  let r := irSensorCallback r cright (spec_IR_index CRIGHT) in
  let r := irSensorCallback r cleft (spec_IR_index CLEFT) in
  irSensorCallback r back (spec_IR_index BACK).

(** The five scenarios of the spec (obstacle_linear 0.3, obstacle_angular
    0.4, to be evaluated at range 10). *)
Definition scenario1 : PheenoRobot := robot_reading d_0_3 d_0_4 d_5 d_20 d_20 d_20 d_20 d_20.
Definition scenario2 : PheenoRobot := robot_reading d_0_3 d_0_4 d_20 d_20 d_20 d_5 d_5 d_20.
Definition scenario3 : PheenoRobot := robot_reading d_0_3 d_0_4 d_20 d_20 d_20 d_5 d_20 d_20.
Definition scenario4 : PheenoRobot := robot_reading d_0_3 d_0_4 d_20 d_3 d_20 d_20 d_20 d_20.
Definition scenario5 : PheenoRobot := robot_reading d_0_3 d_0_4 d_20 d_20 d_20 d_20 d_20 d_20.

(** CENTER and BACK read 5, the other four 20. *)
Definition center_and_back : PheenoRobot :=
  robot_reading d_0_3 d_0_4 d_5 d_20 d_20 d_20 d_20 d_5.

(** Only BACK reads 5. *)
Definition back_only : PheenoRobot :=
  robot_reading d_0_3 d_0_4 d_20 d_20 d_20 d_20 d_20 d_5.

(** CENTER reads 5 and the obstacle angular velocity was set to -0.5. *)
Definition negative_profile : PheenoRobot :=
  robot_reading d_0_3 d_neg_half d_5 d_20 d_20 d_20 d_20 d_20.

(** A generator that returns [n] at every draw, and one that returns the
    values of a list in turn (and 0 after them). *)
Definition rand_const (n : Z) : rand_state :=
  {| rand_seq := fun _ => n; rand_pos := 0 |}.

Definition rand_of_list (l : list Z) : rand_state :=
  {| rand_seq := fun i => nth i l 0; rand_pos := 0 |}.

(** ** The remaining members of the velocity profile *)

(** [PheenoRobot::getDefaultLinearVelocity] and its three siblings. *)
Definition getDefaultLinearVelocity (r : PheenoRobot) : double := def_linear_vel_ r.
Definition getDefaultAngularVelocity (r : PheenoRobot) : double := def_angular_vel_ r.
Definition getObstacleLinearVelocity (r : PheenoRobot) : double := obs_linear_vel_ r.
Definition getObstacleAngularVelocity (r : PheenoRobot) : double := obs_angular_vel_ r.

(** [PheenoRobot::setDefaultLinearVelocity] and
    [PheenoRobot::setDefaultAngularVelocity]: they assign the default only;
    [linear_vel_] and [angular_vel_], which the constructor copied from the
    defaults, are not touched. *)
Definition setDefaultLinearVelocity (r : PheenoRobot) (new_linear_velocity : double)
  : PheenoRobot :=
  {| ir_sensor_vals_ := ir_sensor_vals_ r;
     def_linear_vel_ := new_linear_velocity;
     def_angular_vel_ := def_angular_vel_ r;
     obs_linear_vel_ := obs_linear_vel_ r;
     obs_angular_vel_ := obs_angular_vel_ r;
     linear_vel_ := linear_vel_ r;
     angular_vel_ := angular_vel_ r |}.

Definition setDefaultAngularVelocity (r : PheenoRobot) (new_angular_velocity : double)
  : PheenoRobot :=
  {| ir_sensor_vals_ := ir_sensor_vals_ r;
     def_linear_vel_ := def_linear_vel_ r;
     def_angular_vel_ := new_angular_velocity;
     obs_linear_vel_ := obs_linear_vel_ r;
     obs_angular_vel_ := obs_angular_vel_ r;
     linear_vel_ := linear_vel_ r;
     angular_vel_ := angular_vel_ r |}.

(** ** Histories of calls

    What can happen to the object between two evaluations: one of the six IR
    subscribers, each bound by the constructor to its enumerator of
    [Pheeno::IR], delivers a reading, or one of the four setters is called. *)
Inductive member_call : Type :=
  | ir_message (c : IR) (data : double)
  | set_default_linear (x : double)
  | set_default_angular (x : double)
  | set_obstacle_linear (x : double)
  | set_obstacle_angular (x : double).

Definition IR_eqb (a b : IR) : bool :=
  match a, b with
  | CENTER, CENTER | RIGHT, RIGHT | LEFT, LEFT
  | CRIGHT, CRIGHT | CLEFT, CLEFT | BACK, BACK => true
  | _, _ => false
  end.

(** The reading most recently delivered on channel [c], if any; the history
    is in the order of the calls. *)
Fixpoint last_ir_message (c : IR) (ms : list member_call) : option double :=
  match ms with
  | [] => None
  | m :: ms' =>
      match last_ir_message c ms' with
      | Some x => Some x
      | None =>
          match m with
          | ir_message c' x => if IR_eqb c c' then Some x else None
          | _ => None
          end
      end
  end.

Section Histories.

Context {P : Platform}.

Definition member_call_run (r : PheenoRobot) (m : member_call) : PheenoRobot :=
  match m with
  | ir_message c data => irSensorCallback r data (IR_index c)
  | set_default_linear x => setDefaultLinearVelocity r x
  | set_default_angular x => setDefaultAngularVelocity r x
  | set_obstacle_linear x => setObstacleLinearVelocity r x
  | set_obstacle_angular x => setObstacleAngularVelocity r x
  end.

Definition history_run (r : PheenoRobot) (ms : list member_call) : PheenoRobot :=
  fold_left member_call_run ms r.

End Histories.

(** The value most recently passed to one of the setters in a history, if
    any; [pick] tells the calls of that setter. *)
Definition last_set (pick : member_call -> option double) (ms : list member_call)
  : option double :=
  fold_left (fun acc m => match pick m with Some x => Some x | None => acc end)
    ms None.

Definition default_linear_set (m : member_call) : option double :=
  match m with set_default_linear x => Some x | _ => None end.
Definition default_angular_set (m : member_call) : option double :=
  match m with set_default_angular x => Some x | _ => None end.
Definition obstacle_linear_set (m : member_call) : option double :=
  match m with set_obstacle_linear x => Some x | _ => None end.
Definition obstacle_angular_set (m : member_call) : option double :=
  match m with set_obstacle_angular x => Some x | _ => None end.

(** ** The odometry, encoder and IMU members

    The second group of members of the object, with the messages that feed
    them.  The message fields are taken after their [static_cast]: a double
    for every coordinate, an integer for the [Int16] of an encoder. *)

Record Vector3 : Type := { v_x : double; v_y : double; v_z : double }.

Record Quaternion : Type := {
  q_x : double; q_y : double; q_z : double; q_w : double
}.

(** The fields of [nav_msgs::Odometry] read by [odomCallback]:
    [pose.pose.position], [pose.pose.orientation], [twist.twist.linear],
    [twist.twist.angular]. *)
Record Odometry : Type := {
  pose_position : Vector3;
  pose_orientation : Quaternion;
  twist_linear : Vector3;
  twist_angular : Vector3
}.

(** The eight vectors.  The header that declares them is not among the
    sources; their element types are the target types of the casts in the
    callbacks. *)
Record PheenoSensors : Type := {
  odom_pose_position_ : list double;
  odom_pose_orient_ : list double;
  odom_twist_linear_ : list double;
  odom_twist_angular_ : list double;
  encoder_vals_ : list Z;
  magnetometer_vals_ : list double;
  gyroscope_vals_ : list double;
  accelerometer_vals_ : list double
}.

(** The vectors as they are before the constructor's loops. *)
Definition empty_sensors : PheenoSensors :=
  {| odom_pose_position_ := []; odom_pose_orient_ := [];
     odom_twist_linear_ := []; odom_twist_angular_ := [];
     encoder_vals_ := [];
     magnetometer_vals_ := []; gyroscope_vals_ := [];
     accelerometer_vals_ := [] |}.

(** The body of the constructor's loop over 3 placements. *)
Definition push_back_3_placements (s : PheenoSensors) : PheenoSensors :=
  {| odom_pose_position_ := odom_pose_position_ s ++ [d_zero];
     odom_pose_orient_ := odom_pose_orient_ s;
     odom_twist_linear_ := odom_twist_linear_ s ++ [d_zero];
     odom_twist_angular_ := odom_twist_angular_ s ++ [d_zero];
     encoder_vals_ := encoder_vals_ s;
     magnetometer_vals_ := magnetometer_vals_ s ++ [d_zero];
     gyroscope_vals_ := gyroscope_vals_ s ++ [d_zero];
     accelerometer_vals_ := accelerometer_vals_ s ++ [d_zero] |}.

(** The body of the constructor's loop over 4 placements. *)
Definition push_back_4_placements (s : PheenoSensors) : PheenoSensors :=
  {| odom_pose_position_ := odom_pose_position_ s;
     odom_pose_orient_ := odom_pose_orient_ s ++ [d_zero];
     odom_twist_linear_ := odom_twist_linear_ s;
     odom_twist_angular_ := odom_twist_angular_ s;
     encoder_vals_ := encoder_vals_ s ++ [0];
     magnetometer_vals_ := magnetometer_vals_ s;
     gyroscope_vals_ := gyroscope_vals_ s;
     accelerometer_vals_ := accelerometer_vals_ s |}.

(** [PheenoRobot::PheenoRobot], the two loops that fill these vectors. *)
Definition PheenoSensors_init : PheenoSensors :=
  Nat.iter 4 push_back_4_placements (Nat.iter 3 push_back_3_placements empty_sensors).

(** [v[0] = x; v[1] = y; v[2] = z;] *)
Definition assign_xyz (v : list double) (m : Vector3) : list double :=
  <[2%nat := v_z m]> (<[1%nat := v_y m]> (<[0%nat := v_x m]> v)).

(** [v[0] = x; v[1] = y; v[2] = z; v[3] = w;] *)
Definition assign_xyzw (v : list double) (m : Quaternion) : list double :=
  <[3%nat := q_w m]> (<[2%nat := q_z m]> (<[1%nat := q_y m]> (<[0%nat := q_x m]> v))).

(** [PheenoRobot::odomCallback] *)
Definition odomCallback (s : PheenoSensors) (msg : Odometry) : PheenoSensors :=
  {| odom_pose_position_ := assign_xyz (odom_pose_position_ s) (pose_position msg);
     odom_pose_orient_ := assign_xyzw (odom_pose_orient_ s) (pose_orientation msg);
     odom_twist_linear_ := assign_xyz (odom_twist_linear_ s) (twist_linear msg);
     odom_twist_angular_ := assign_xyz (odom_twist_angular_ s) (twist_angular msg);
     encoder_vals_ := encoder_vals_ s;
     magnetometer_vals_ := magnetometer_vals_ s;
     gyroscope_vals_ := gyroscope_vals_ s;
     accelerometer_vals_ := accelerometer_vals_ s |}.

(** [PheenoRobot::encoderCallback]: [data] is the value of the [Int16],
    which the cast to [int] keeps.  The subscribers bind [encoder_location]
    to an enumerator of [Pheeno::ENCODER]; at an index outside the vector the
    C++ assignment is undefined and the model leaves the vector as it is. *)
Definition encoderCallback (s : PheenoSensors) (data : Z) (encoder_location : nat)
  : PheenoSensors :=
  {| odom_pose_position_ := odom_pose_position_ s;
     odom_pose_orient_ := odom_pose_orient_ s;
     odom_twist_linear_ := odom_twist_linear_ s;
     odom_twist_angular_ := odom_twist_angular_ s;
     encoder_vals_ := <[encoder_location := data]> (encoder_vals_ s);
     magnetometer_vals_ := magnetometer_vals_ s;
     gyroscope_vals_ := gyroscope_vals_ s;
     accelerometer_vals_ := accelerometer_vals_ s |}.

(** [PheenoRobot::magnetometerCallback] *)
Definition magnetometerCallback (s : PheenoSensors) (msg : Vector3) : PheenoSensors :=
  {| odom_pose_position_ := odom_pose_position_ s;
     odom_pose_orient_ := odom_pose_orient_ s;
     odom_twist_linear_ := odom_twist_linear_ s;
     odom_twist_angular_ := odom_twist_angular_ s;
     encoder_vals_ := encoder_vals_ s;
     magnetometer_vals_ := assign_xyz (magnetometer_vals_ s) msg;
     gyroscope_vals_ := gyroscope_vals_ s;
     accelerometer_vals_ := accelerometer_vals_ s |}.

(** [PheenoRobot::gyroscopeCallback] *)
Definition gyroscopeCallback (s : PheenoSensors) (msg : Vector3) : PheenoSensors :=
  {| odom_pose_position_ := odom_pose_position_ s;
     odom_pose_orient_ := odom_pose_orient_ s;
     odom_twist_linear_ := odom_twist_linear_ s;
     odom_twist_angular_ := odom_twist_angular_ s;
     encoder_vals_ := encoder_vals_ s;
     magnetometer_vals_ := magnetometer_vals_ s;
     gyroscope_vals_ := assign_xyz (gyroscope_vals_ s) msg;
     accelerometer_vals_ := accelerometer_vals_ s |}.

(** [PheenoRobot::accelerometerCallback] *)
Definition accelerometerCallback (s : PheenoSensors) (msg : Vector3) : PheenoSensors :=
  {| odom_pose_position_ := odom_pose_position_ s;
     odom_pose_orient_ := odom_pose_orient_ s;
     odom_twist_linear_ := odom_twist_linear_ s;
     odom_twist_angular_ := odom_twist_angular_ s;
     encoder_vals_ := encoder_vals_ s;
     magnetometer_vals_ := magnetometer_vals_ s;
     gyroscope_vals_ := gyroscope_vals_ s;
     accelerometer_vals_ := assign_xyz (accelerometer_vals_ s) msg |}.

(** The sizes the constructor gives the eight vectors. *)
Definition sensors_sized (s : PheenoSensors) : Prop :=
  length (odom_pose_position_ s) = 3%nat /\
  length (odom_pose_orient_ s) = 4%nat /\
  length (odom_twist_linear_ s) = 3%nat /\
  length (odom_twist_angular_ s) = 3%nat /\
  length (encoder_vals_ s) = 4%nat /\
  length (magnetometer_vals_ s) = 3%nat /\
  length (gyroscope_vals_ s) = 3%nat /\
  length (accelerometer_vals_ s) = 3%nat.

(** A message delivered to one of these callbacks. *)
Inductive sensor_message : Type :=
  | odom_message (msg : Odometry)
  | encoder_message (data : Z) (encoder_location : nat)
  | magnetometer_message (msg : Vector3)
  | gyroscope_message (msg : Vector3)
  | accelerometer_message (msg : Vector3).

Definition sensor_message_run (s : PheenoSensors) (m : sensor_message) : PheenoSensors :=
  match m with
  | odom_message msg => odomCallback s msg
  | encoder_message data loc => encoderCallback s data loc
  | magnetometer_message msg => magnetometerCallback s msg
  | gyroscope_message msg => gyroscopeCallback s msg
  | accelerometer_message msg => accelerometerCallback s msg
  end.

Definition sensor_history_run (s : PheenoSensors) (ms : list sensor_message)
  : PheenoSensors :=
  fold_left sensor_message_run ms s.

(** The latest message of each kind in a history, if any; a history is in
    the order of delivery. *)
Definition last_odom (ms : list sensor_message) : option Odometry :=
  fold_left (fun acc m => match m with odom_message msg => Some msg | _ => acc end)
    ms None.

Definition last_magnetometer (ms : list sensor_message) : option Vector3 :=
  fold_left
    (fun acc m => match m with magnetometer_message msg => Some msg | _ => acc end)
    ms None.

Definition last_gyroscope (ms : list sensor_message) : option Vector3 :=
  fold_left
    (fun acc m => match m with gyroscope_message msg => Some msg | _ => acc end)
    ms None.

Definition last_accelerometer (ms : list sensor_message) : option Vector3 :=
  fold_left
    (fun acc m => match m with accelerometer_message msg => Some msg | _ => acc end)
    ms None.

(** The latest count delivered for the encoder at [loc], if any. *)
Definition last_encoder (loc : nat) (ms : list sensor_message) : option Z :=
  fold_left
    (fun acc m =>
       match m with
       | encoder_message data l => if Nat.eqb l loc then Some data else acc
       | _ => acc
       end)
    ms None.

Definition xyz (m : Vector3) : list double := [v_x m; v_y m; v_z m].
Definition xyzw (m : Quaternion) : list double := [q_x m; q_y m; q_z m; q_w m].

(** An encoder message goes to one of the four slots. *)
Definition encoder_location_ok (m : sensor_message) : Prop :=
  match m with
  | encoder_message _ loc => (loc < 4)%nat
  | _ => True
  end.

(** ** More concrete states *)

Definition d_nan : double := S754_nan.

(** CRIGHT and LEFT read 5, the other four 20: the two tripped channels ask
    for opposite turns. *)
Definition cright_and_left : PheenoRobot :=
  robot_reading d_0_3 d_0_4 d_20 d_20 d_5 d_5 d_20 d_20.

(** CLEFT and RIGHT read 5, the other four 20. *)
Definition cleft_and_right : PheenoRobot :=
  robot_reading d_0_3 d_0_4 d_20 d_5 d_20 d_20 d_5 d_20.

(** RIGHT and LEFT read 5, the other four 20. *)
Definition right_and_left : PheenoRobot :=
  robot_reading d_0_3 d_0_4 d_20 d_5 d_5 d_20 d_20 d_20.

(** CRIGHT reads 5, BACK keeps the 0 of the constructor, the rest read 20. *)
Definition back_unused : PheenoRobot :=
  robot_reading d_0_3 d_0_4 d_20 d_20 d_20 d_5 d_20 d_zero.

(** Every channel reads NaN. *)
Definition all_nan : PheenoRobot :=
  robot_reading d_0_3 d_0_4 d_nan d_nan d_nan d_nan d_nan d_nan.

Definition v3_123 : Vector3 := {| v_x := d_3; v_y := d_5; v_z := d_10 |}.
Definition v3_other : Vector3 := {| v_x := d_20; v_y := d_20; v_z := d_half |}.
Definition q_unit : Quaternion :=
  {| q_x := d_zero; q_y := d_zero; q_z := d_zero; q_w := d_of_Z 1 |}.
Definition odom_a : Odometry :=
  {| pose_position := v3_123; pose_orientation := q_unit;
     twist_linear := v3_other; twist_angular := v3_123 |}.
Definition odom_b : Odometry :=
  {| pose_position := v3_other; pose_orientation := q_unit;
     twist_linear := v3_123; twist_angular := v3_other |}.

(** A history of sensor messages: two odometry messages around messages of
    the other kinds, two of them for the encoder at 2. *)
Definition sensor_history : list sensor_message :=
  [odom_message odom_a; encoder_message 7 2; magnetometer_message v3_123;
   encoder_message (-3) 2; odom_message odom_b; encoder_message 12 0].

(** A history of calls on the robot: CENTER is delivered twice, LEFT once,
    between two setter calls. *)
Definition call_history : list member_call :=
  [ir_message CENTER d_20; set_obstacle_angular d_0_4; ir_message LEFT d_3;
   ir_message CENTER d_5; set_default_linear d_10].

(** ** Proof steps for the comparisons of doubles *)

Ltac compare_cases :=
  repeat match goal with
         | |- context [Z.compare ?a ?b] =>
             destruct (Z.compare_spec a b)
         | |- context [Pos.compare_cont Eq ?a ?b] =>
             change (Pos.compare_cont Eq a b) with (Pos.compare a b) in *;
             destruct (Pos.compare_spec a b)
         end.

(** ** Proof steps shared by the lemmas on the members *)

Ltac avoid_unfold :=
  unfold avoidObstacleMove, avoidObstacleStop, randomTurn, rand, tripped in *.

Ltac split_guards :=
  repeat match goal with
         | |- context [if ?b then _ else _] => destruct b eqn:?
         end.

Ltac six_slots_vector r :=
  unfold six_slots;
  destruct (ir_sensor_vals_ r) as [ | ? [ | ? [ | ? [ | ? [ | ? [ | ? [ | ? ?]]]]]]];
  try discriminate.

(** * Properties *)

(** ** Binary64 facts *)

(** The literals are the doubles they are meant to be. *)
Example literals :
  d_half = ddiv (d_of_Z 1) (d_of_Z 2) /\ d_five = d_of_Z 5 /\
  d_neg_one = d_of_Z (-1) /\
  forallb is_double [d_zero; d_half; d_five; d_neg_one] = true.
Proof. repeat split; reflexivity. Qed.

(** Multiplying a double by the literal [-1.0] flips its sign and rounds
    nothing away. *)
Lemma dmul_neg_one_opp (x : double) :
  is_double x = true -> (d_neg_one * x)%D = dopp x.
Proof.
  destruct x as [s | s | | s m e]; try reflexivity.
  unfold is_double, valid_binary, bounded, canonical_mantissa.
  intros H. apply andb_prop in H as [Hcan Hmax]. apply Z.eqb_eq in Hcan.
  unfold dmul, SFmul, d_neg_one, binary_round_aux, shr_fexp.
  let t := eval cbv in (4503599627370496 * m)%positive in
  change (4503599627370496 * m)%positive with t.
  cbn [Zdigits2 digits2_pos].
  rewrite !Pos2Z.inj_succ.
  set (d := Z.pos (digits2_pos m)) in *.
  replace (Z.succ _ + (-52 + e)) with (d + e) by lia.
  rewrite Hcan.
  replace (e - (-52 + e)) with 52 by lia.
  cbn [shr shr_record_of_loc].
  cbv [SpecFloat.iter_pos shr_1 orb].
  cbn [shr_m loc_of_shr_record round_nearest_even Zdigits2].
  fold d. replace (-52 + e + 52) with e by lia.
  rewrite Hcan, Z.sub_diag. cbn [shr shr_m shr_record_of_loc].
  rewrite Hmax. reflexivity.
Qed.

Lemma dabs_dopp (x : double) : dabs (dopp x) = dabs x.
Proof. destruct x; reflexivity. Qed.

Lemma dabs_dmul_neg_one (x : double) :
  is_double x = true -> dabs (d_neg_one * x)%D = dabs x.
Proof. intros H. rewrite dmul_neg_one_opp by exact H. apply dabs_dopp. Qed.

(** Comparing the other way round gives the opposite answer. *)
Lemma SFcompare_swap (x y : double) :
  SFcompare y x = option_map CompOpp (SFcompare x y).
Proof.
  destruct x as [sx | sx | | sx mx ex], y as [sy | sy | | sy my ey];
    try reflexivity; try (destruct sx; reflexivity);
    try (destruct sy; reflexivity); try (destruct sx, sy; reflexivity).
  cbn [SFcompare option_map].
  assert (Hm : Pos.compare_cont Eq my mx = CompOpp (Pos.compare_cont Eq mx my))
    by (rewrite Pos.compare_cont_antisym; reflexivity).
  rewrite (Z.compare_antisym ex ey), Hm.
  destruct sx, sy, (ex ?= ey), (Pos.compare_cont Eq mx my); reflexivity.
Qed.

(** A reading at or above the threshold is not strictly below it. *)
Lemma dle_not_dlt (limit x : double) :
  (limit <=? x)%D = true -> (x <? limit)%D = false.
Proof.
  unfold dle, dlt, SFleb, SFltb. rewrite (SFcompare_swap limit x).
  destruct (SFcompare limit x) as [[ | | ] | ]; cbn; congruence.
Qed.

(** ** The random turn *)

Lemma randomTurn_rng (a : double) (g : rand_state) :
  snd (randomTurn a g) = snd (rand g).
Proof. unfold randomTurn, rand. cbn. reflexivity. Qed.

Lemma randomTurn_sign (a : double) (g : rand_state) :
  fst (randomTurn a g) = a \/ fst (randomTurn a g) = (d_neg_one * a)%D.
Proof.
  unfold randomTurn, rand. cbn.
  destruct (Z.rem _ 10 + 1 <=? 5); [right | left]; reflexivity.
Qed.

(** ** The constructor and the sensor callback *)

Lemma PheenoRobot_init_ir (p : rosparams) :
  ir_sensor_vals_ (PheenoRobot_init p) = replicate 6 d_zero.
Proof. reflexivity. Qed.

Lemma PheenoRobot_init_six_slots (p : rosparams) : six_slots (PheenoRobot_init p).
Proof. reflexivity. Qed.

Lemma irSensorCallback_six_slots (r : PheenoRobot) (x : double) (i : nat) :
  six_slots r -> six_slots (irSensorCallback r x i).
Proof. unfold six_slots. cbn. rewrite length_insert. trivial. Qed.

Lemma spec_platform_ok (stray : double) : numbering_ok (P := spec_platform stray).
Proof.
  split.
  - intros [] []; cbn; congruence.
  - intros []; cbn; lia.
Qed.

(** ** The avoidance members *)

Section Avoidance.

Context {P : Platform}.

(** The outcome of either member when CENTER is tripped, in full. *)
Lemma avoidObstacleMove_center r lin ang range g :
  tripped r range CENTER = true ->
  avoidObstacleMove r lin ang range g =
  {| linear := obs_linear_vel_ r;
     angular := if (ir r RIGHT <? ir r LEFT)%D
                then (d_neg_one * obs_angular_vel_ r)%D
                else obs_angular_vel_ r;
     obs_flag := true;
     rng := if (dabs (ir r RIGHT - ir r LEFT) <? d_five)%D
               || ((range <? ir r RIGHT)%D && (range <? ir r LEFT)%D)
            then snd (rand g) else g |}.
Proof.
  intros H. avoid_unfold. rewrite H. split_guards; reflexivity.
Qed.

Lemma avoidObstacleStop_center r lin ang range g :
  tripped r range CENTER = true ->
  avoidObstacleStop r lin ang range g =
  {| linear := d_zero;
     angular := if (ir r RIGHT <? ir r LEFT)%D
                then (d_neg_one * obs_angular_vel_ r)%D
                else obs_angular_vel_ r;
     obs_flag := true;
     rng := g |}.
Proof.
  intros H. avoid_unfold. rewrite H. split_guards; reflexivity.
Qed.

(** The outcome of either member when none of the five channels it reads is
    tripped. *)
Lemma avoidObstacleMove_clear r lin ang range g :
  (forall c, c <> BACK -> tripped r range c = false) ->
  avoidObstacleMove r lin ang range g =
  {| linear := lin; angular := ang; obs_flag := false; rng := g |}.
Proof.
  intros H. avoid_unfold.
  rewrite (H CENTER), (H CRIGHT), (H CLEFT), (H RIGHT), (H LEFT) by discriminate.
  reflexivity.
Qed.

Lemma avoidObstacleStop_clear r lin ang range g :
  (forall c, c <> BACK -> tripped r range c = false) ->
  avoidObstacleStop r lin ang range g =
  {| linear := lin; angular := ang; obs_flag := false; rng := g |}.
Proof.
  intros H. avoid_unfold.
  rewrite (H CENTER), (H CRIGHT), (H CLEFT), (H RIGHT), (H LEFT) by discriminate.
  reflexivity.
Qed.

(** Both members read the vector through the five channels other than BACK
    only, and the object through the two obstacle velocities only. *)
Lemma avoidObstacleMove_same_but_BACK r1 r2 lin ang range g :
  same_but_BACK r1 r2 ->
  avoidObstacleMove r1 lin ang range g = avoidObstacleMove r2 lin ang range g.
Proof.
  intros (H & Hl & Ha). unfold avoidObstacleMove.
  rewrite (H CENTER), (H CRIGHT), (H CLEFT), (H RIGHT), (H LEFT), Hl, Ha
    by discriminate.
  reflexivity.
Qed.

Lemma avoidObstacleStop_same_but_BACK r1 r2 lin ang range g :
  same_but_BACK r1 r2 ->
  avoidObstacleStop r1 lin ang range g = avoidObstacleStop r2 lin ang range g.
Proof.
  intros (H & Hl & Ha). unfold avoidObstacleStop.
  rewrite (H CENTER), (H CRIGHT), (H CLEFT), (H RIGHT), (H LEFT), Ha
    by discriminate.
  reflexivity.
Qed.

(** A sensor callback on BACK changes the BACK reading and nothing else the
    avoidance members read. *)
Lemma irSensorCallback_BACK_same r x :
  (forall a b, IR_index a = IR_index b -> a = b) ->
  same_but_BACK r (irSensorCallback r x (IR_index BACK)).
Proof.
  intros Hinj. split; [ | split; reflexivity ].
  intros c Hc. unfold ir, subscript. cbn.
  rewrite list_lookup_insert_ne; [ reflexivity | ].
  intros E. apply Hinj in E. congruence.
Qed.

(** C3. When CENTER reads below the range, both members report an obstacle
    and leave in [angular] the turn of the lateral-clearance rule:
    [-1.0 * obs_angular_vel_] (that is [-obs_angular_vel_], see
    [dmul_neg_one_opp]) when RIGHT reads less than LEFT, [obs_angular_vel_]
    otherwise.  This holds whatever the other channels read and whatever the
    generator would draw, so in [avoidObstacleMove] the rule overrides the
    random turn of the near-symmetric sub-branch. *)
Theorem center_tripped_lateral_rule r lin ang range g :
  (ir r CENTER <? range)%D = true ->
  (obs_flag (avoidObstacleMove r lin ang range g) = true /\
   angular (avoidObstacleMove r lin ang range g) =
     if (ir r RIGHT <? ir r LEFT)%D
     then (d_neg_one * obs_angular_vel_ r)%D else obs_angular_vel_ r) /\
  (obs_flag (avoidObstacleStop r lin ang range g) = true /\
   angular (avoidObstacleStop r lin ang range g) =
     if (ir r RIGHT <? ir r LEFT)%D
     then (d_neg_one * obs_angular_vel_ r)%D else obs_angular_vel_ r).
Proof.
  intros H.
  rewrite avoidObstacleMove_center, avoidObstacleStop_center by exact H.
  cbn. repeat split.
Qed.

(** C4. Whenever [avoidObstacleStop] reports an obstacle it leaves 0 in
    [linear], and whenever [avoidObstacleMove] reports an obstacle it leaves
    [obs_linear_vel_] in [linear]. *)
Theorem triggered_linear r lin ang range g :
  (obs_flag (avoidObstacleStop r lin ang range g) = true ->
   linear (avoidObstacleStop r lin ang range g) = d_zero) /\
  (obs_flag (avoidObstacleMove r lin ang range g) = true ->
   linear (avoidObstacleMove r lin ang range g) = obs_linear_vel_ r).
Proof.
  avoid_unfold. split; split_guards; cbn; congruence.
Qed.

(** C5. When exactly one flank channel reads below the range and the other
    five channels, CENTER and BACK among them, read at or above it, both
    members report an obstacle, turn as the priority table says for that
    channel, and draw no random number. *)
Theorem single_flank_priority_table r lin ang range g c :
  flank c = true ->
  only_tripped r range c ->
  (obs_flag (avoidObstacleMove r lin ang range g) = true /\
   angular (avoidObstacleMove r lin ang range g) = priority_table r c /\
   rng (avoidObstacleMove r lin ang range g) = g) /\
  (obs_flag (avoidObstacleStop r lin ang range g) = true /\
   angular (avoidObstacleStop r lin ang range g) = priority_table r c /\
   rng (avoidObstacleStop r lin ang range g) = g).
Proof.
  intros Hf [Hc Hothers].
  assert (Hclear : forall c', c' <> c -> tripped r range c' = false).
  { intros c' Hne. apply dle_not_dlt, Hothers, Hne. }
  avoid_unfold.
  destruct c; try discriminate Hf; rewrite Hc;
    repeat match goal with
           | |- context [(ir r ?c' <? range)%D] =>
               rewrite (Hclear c') by discriminate
           end;
    cbn; repeat split.
Qed.

(** C6. When no channel reads below the range, both members report no
    obstacle and return the command they were given. *)
Theorem none_tripped_identity r lin ang range g :
  (forall c, tripped r range c = false) ->
  (obs_flag (avoidObstacleMove r lin ang range g) = false /\
   linear (avoidObstacleMove r lin ang range g) = lin /\
   angular (avoidObstacleMove r lin ang range g) = ang) /\
  (obs_flag (avoidObstacleStop r lin ang range g) = false /\
   linear (avoidObstacleStop r lin ang range g) = lin /\
   angular (avoidObstacleStop r lin ang range g) = ang).
Proof.
  intros H.
  rewrite avoidObstacleMove_clear, avoidObstacleStop_clear by (intros; apply H).
  cbn. repeat split.
Qed.

(** C7. Right after construction every proximity reading is 0, and for every
    range strictly above 0 both members report an obstacle. *)
Theorem startup_triggered p lin ang range g :
  (forall c, (IR_index c < 6)%nat) ->
  (forall c, ir (PheenoRobot_init p) c = d_zero) /\
  ((d_zero <? range)%D = true ->
   obs_flag (avoidObstacleMove (PheenoRobot_init p) lin ang range g) = true /\
   obs_flag (avoidObstacleStop (PheenoRobot_init p) lin ang range g) = true).
Proof.
  intros Hlt.
  assert (Hzero : forall c, ir (PheenoRobot_init p) c = d_zero).
  { intros c. unfold ir, subscript. rewrite PheenoRobot_init_ir.
    rewrite lookup_replicate_2 by apply Hlt. reflexivity. }
  split; [ exact Hzero | ].
  intros Hpos.
  rewrite avoidObstacleMove_center, avoidObstacleStop_center
    by (avoid_unfold; rewrite Hzero; exact Hpos).
  cbn. split; reflexivity.
Qed.

(** C8. With the snapshot unchanged and the generator put back to the same
    state, a second call of either member, on the command the first call
    left in [linear] and [angular], gives the same [linear], [angular] and
    flag as the first. *)
Theorem second_call_same_result r lin ang range g :
  (let first := avoidObstacleMove r lin ang range g in
   avoidObstacleMove r (linear first) (angular first) range g = first) /\
  (let first := avoidObstacleStop r lin ang range g in
   avoidObstacleStop r (linear first) (angular first) range g = first).
Proof.
  avoid_unfold. split; split_guards; reflexivity.
Qed.

(** C9, as amended.  Whenever either member reports an obstacle, the
    [angular] it leaves is [obs_angular_vel_] or its negation, also when it
    comes from the random turn; hence its magnitude is the magnitude of
    [obs_angular_vel_]. *)
Theorem triggered_angular_sign r lin ang range g :
  is_double (obs_angular_vel_ r) = true ->
  (obs_flag (avoidObstacleMove r lin ang range g) = true ->
   (angular (avoidObstacleMove r lin ang range g) = obs_angular_vel_ r \/
    angular (avoidObstacleMove r lin ang range g) = dopp (obs_angular_vel_ r)) /\
   dabs (angular (avoidObstacleMove r lin ang range g)) = dabs (obs_angular_vel_ r)) /\
  (obs_flag (avoidObstacleStop r lin ang range g) = true ->
   (angular (avoidObstacleStop r lin ang range g) = obs_angular_vel_ r \/
    angular (avoidObstacleStop r lin ang range g) = dopp (obs_angular_vel_ r)) /\
   dabs (angular (avoidObstacleStop r lin ang range g)) = dabs (obs_angular_vel_ r)).
Proof.
  intros Hd. avoid_unfold. rewrite (dmul_neg_one_opp _ Hd).
  split; split_guards; cbn; intros Hflag; try discriminate Hflag;
    rewrite ?dabs_dopp; split; auto.
Qed.

(** C10. Two robots that differ in the BACK reading only get the same
    outcome from either member; and when BACK is the only channel below the
    range, both members report no obstacle and return the command they were
    given. *)
Theorem BACK_never_influences r1 r2 lin ang range g :
  (same_but_BACK r1 r2 ->
   avoidObstacleMove r1 lin ang range g = avoidObstacleMove r2 lin ang range g /\
   avoidObstacleStop r1 lin ang range g = avoidObstacleStop r2 lin ang range g) /\
  (tripped r1 range BACK = true /\
   (forall c, c <> BACK -> tripped r1 range c = false) ->
   avoidObstacleMove r1 lin ang range g =
     {| linear := lin; angular := ang; obs_flag := false; rng := g |} /\
   avoidObstacleStop r1 lin ang range g =
     {| linear := lin; angular := ang; obs_flag := false; rng := g |}).
Proof.
  split.
  - intros H. split.
    + apply avoidObstacleMove_same_but_BACK, H.
    + apply avoidObstacleStop_same_but_BACK, H.
  - intros [_ H]. split.
    + apply avoidObstacleMove_clear, H.
    + apply avoidObstacleStop_clear, H.
Qed.

End Avoidance.

(** ** The trigger count *)

Lemma length_filter_Permutation {A} (f : A -> bool) (l k : list A) :
  l ≡ₚ k -> length (List.filter f l) = length (List.filter f k).
Proof.
  induction 1 as [ | x l k _ IH | x y l | l k m _ IH1 _ IH2 ]; cbn.
  - reflexivity.
  - destruct (f x); cbn; congruence.
  - destruct (f x), (f y); reflexivity.
  - congruence.
Qed.

Lemma length_filter_map {A B} (f : B -> bool) (h : A -> B) (l : list A) :
  length (List.filter (fun a => f (h a)) l) = length (List.filter f (map h l)).
Proof.
  induction l as [ | a l IH ]; cbn; [ reflexivity | ].
  destruct (f (h a)); cbn; congruence.
Qed.

Section Trigger.

Context {P : Platform}.

(** A numbering with distinct values below six uses each of 0..5 once. *)
Lemma numbering_ok_Permutation :
  numbering_ok -> map IR_index all_IR ≡ₚ seq 0 6.
Proof.
  intros [Hinj Hlt].
  apply submseteq_length_Permutation; [ | reflexivity ].
  apply NoDup_submseteq.
  - apply (NoDup_fmap_2_strong IR_index).
    + intros a b _ _ E. apply Hinj, E.
    + apply NoDup_ListNoDup. unfold all_IR.
      repeat (constructor; [ cbn; intuition discriminate | ]). constructor.
  - intros i Hi. apply list_elem_of_fmap in Hi as (c & -> & _).
    apply list_elem_of_In, in_seq. specialize (Hlt c). lia.
Qed.

(** What the loop computes on a six-slot vector: the six slots below the
    limit, and one more when the double behind the vector is below it. *)
Lemma irSensorTriggered_count r limit :
  six_slots r ->
  irSensorTriggered r limit =
  (1 <? Z.of_nat (count_below (ir_sensor_vals_ r) limit)
        + (if (past_the_end <? limit)%D then 1 else 0)).
Proof.
  unfold irSensorTriggered, irSensorTriggered_indices, count_below, subscript.
  six_slots_vector r. intros _. cbn.
  repeat match goal with
         | |- context [dlt ?x limit] => destruct (dlt x limit)
         end;
    reflexivity.
Qed.

(** Counting the tripped channels is counting the slots below the limit. *)
Lemma count_tripped_count_below r limit :
  numbering_ok -> six_slots r ->
  count_tripped r limit = count_below (ir_sensor_vals_ r) limit.
Proof.
  intros Hok.
  unfold count_tripped, count_below, tripped, ir.
  rewrite (length_filter_map (fun x => (x <? limit)%D)
             (fun c => subscript (ir_sensor_vals_ r) (IR_index c))).
  rewrite <- (map_map IR_index (subscript (ir_sensor_vals_ r))).
  rewrite (length_filter_Permutation _ _ _
             (Permutation_map _ (numbering_ok_Permutation Hok))).
  unfold subscript. six_slots_vector r. reflexivity.
Qed.

(** C1, as amended.  [irSensorTriggered] returns true whenever strictly more
    than one of the six channels, BACK included, reads strictly below the
    limit, and false when none of the six does: BACK is counted like the
    other five. *)
Theorem irSensorTriggered_counts_all_six r limit :
  numbering_ok ->
  six_slots r ->
  ((1 < count_tripped r limit)%nat -> irSensorTriggered r limit = true) /\
  (count_tripped r limit = 0%nat -> irSensorTriggered r limit = false).
Proof.
  intros Hok Hsix.
  rewrite irSensorTriggered_count by exact Hsix.
  rewrite (count_tripped_count_below r limit Hok Hsix).
  split; intros H.
  - apply Z.ltb_lt. destruct (past_the_end <? limit)%D; lia.
  - rewrite H. destruct (past_the_end <? limit)%D; reflexivity.
Qed.

(** C2.  On a robot whose vector has its six slots the loop of
    [irSensorTriggered] subscripts index 6, where the vector has no slot,
    and the double found behind the vector enters the count. *)
Theorem irSensorTriggered_seventh_index r limit :
  six_slots r ->
  In 6%nat irSensorTriggered_indices /\
  ir_sensor_vals_ r !! 6%nat = None /\
  irSensorTriggered r limit =
    (1 <? Z.of_nat (count_below (ir_sensor_vals_ r) limit)
          + (if (past_the_end <? limit)%D then 1 else 0)).
Proof.
  intros Hsix. split; [ | split ].
  - unfold irSensorTriggered_indices. cbn. tauto.
  - apply lookup_ge_None. unfold six_slots in Hsix. lia.
  - apply irSensorTriggered_count, Hsix.
Qed.

End Trigger.

(** ** The scenarios of the specification, evaluated

    Range 10, obstacle_linear 0.3, obstacle_angular 0.4; the command passed
    in is (0.5, 0.5). *)

Example scenario1_move :
  avoidObstacleMove (P := platform_20) scenario1 d_half d_half d_10 (rand_const 3)
  = {| linear := d_0_3; angular := d_0_4; obs_flag := true;
       rng := snd (rand (rand_const 3)) |}.
Proof. reflexivity. Qed.

Example scenario1_stop :
  avoidObstacleStop (P := platform_20) scenario1 d_half d_half d_10 (rand_const 3)
  = {| linear := d_zero; angular := d_0_4; obs_flag := true;
       rng := rand_const 3 |}.
Proof. reflexivity. Qed.

Example scenario2_stop :
  avoidObstacleStop (P := platform_20) scenario2 d_half d_half d_10 (rand_const 3)
  = {| linear := d_zero; angular := dopp d_0_4; obs_flag := true;
       rng := snd (rand (rand_const 3)) |} /\
  avoidObstacleStop (P := platform_20) scenario2 d_half d_half d_10 (rand_const 6)
  = {| linear := d_zero; angular := d_0_4; obs_flag := true;
       rng := snd (rand (rand_const 6)) |}.
Proof. split; reflexivity. Qed.

Example scenario3_move :
  avoidObstacleMove (P := platform_20) scenario3 d_half d_half d_10 (rand_const 3)
  = {| linear := d_0_3; angular := dopp d_0_4; obs_flag := true;
       rng := rand_const 3 |}.
Proof. reflexivity. Qed.

Example scenario4_move :
  avoidObstacleMove (P := platform_20) scenario4 d_half d_half d_10 (rand_const 3)
  = {| linear := d_0_3; angular := dopp d_0_4; obs_flag := true;
       rng := rand_const 3 |}.
Proof. reflexivity. Qed.

Example scenario5_move :
  avoidObstacleMove (P := platform_20) scenario5 d_half d_half d_10 (rand_const 3)
  = {| linear := d_half; angular := d_half; obs_flag := false;
       rng := rand_const 3 |}.
Proof. reflexivity. Qed.

(** When the generator is not put back between two calls, the tie between
    CRIGHT and CLEFT can fall the other way at the second call. *)
Example scenario2_consecutive_draws :
  let g := rand_of_list [3; 6] in
  let first := avoidObstacleStop (P := platform_20) scenario2 d_half d_half d_10 g in
  let second :=
    avoidObstacleStop (P := platform_20) scenario2 (linear first) (angular first)
      d_10 (rng first) in
  angular first = dopp d_0_4 /\ angular second = d_0_4.
Proof. split; reflexivity. Qed.

(** ** The claims at concrete inputs *)

(** C1 as stated fails: with CENTER and BACK at 5, the other four channels
    at 20 and the limit 10, a single channel other than BACK is below the
    limit, yet [irSensorTriggered] returns true; and raising BACK alone to 20
    turns the answer to false. *)
Lemma irSensorTriggered_BACK_counts :
  ~ (irSensorTriggered (P := platform_20) center_and_back d_10 = true <->
     (1 < count_tripped_but_BACK (P := platform_20) center_and_back d_10)%nat) /\
  irSensorTriggered (P := platform_20) center_and_back d_10 = true /\
  count_tripped_but_BACK (P := platform_20) center_and_back d_10 = 1%nat /\
  irSensorTriggered (P := platform_20)
    (irSensorCallback center_and_back d_20 (spec_IR_index BACK)) d_10 = false.
Proof.
  split; [ | repeat split; reflexivity ].
  intros [H _]. specialize (H eq_refl). vm_compute in H. lia.
Qed.

Lemma irSensorTriggered_counts_all_six_witness :
  numbering_ok (P := platform_20) /\
  six_slots center_and_back /\
  (1 < count_tripped (P := platform_20) center_and_back d_10)%nat /\
  irSensorTriggered (P := platform_20) center_and_back d_10 = true /\
  count_tripped (P := platform_20) scenario5 d_10 = 0%nat /\
  irSensorTriggered (P := platform_20) scenario5 d_10 = false.
Proof.
  split; [ exact (spec_platform_ok d_20) | ].
  split; [ reflexivity | ].
  split; [ vm_compute; lia | ].
  split.
  - apply (irSensorTriggered_counts_all_six (P := platform_20) center_and_back d_10
             (spec_platform_ok d_20) eq_refl).
    vm_compute. lia.
  - split; [ reflexivity | ].
    apply (irSensorTriggered_counts_all_six (P := platform_20) scenario5 d_10
             (spec_platform_ok d_20) eq_refl).
    reflexivity.
Defined.

(** C2 at scenario 1 with limit 10: only CENTER is below the limit among the
    six slots, and the answer is decided by the double behind the vector. *)
Lemma irSensorTriggered_seventh_index_witness :
  six_slots scenario1 /\
  In 6%nat irSensorTriggered_indices /\
  ir_sensor_vals_ scenario1 !! 6%nat = None /\
  irSensorTriggered (P := platform_20) scenario1 d_10 = false /\
  irSensorTriggered (P := platform_5) scenario1 d_10 = true.
Proof.
  split; [ reflexivity | ].
  destruct (irSensorTriggered_seventh_index (P := platform_20) scenario1 d_10 eq_refl)
    as (Hin & Hnone & H20).
  destruct (irSensorTriggered_seventh_index (P := platform_5) scenario1 d_10 eq_refl)
    as (_ & _ & H5).
  split; [ exact Hin | ].
  split; [ exact Hnone | ].
  split; [ rewrite H20 | rewrite H5 ]; reflexivity.
Defined.

Lemma center_tripped_lateral_rule_witness :
  (ir (P := platform_20) scenario1 CENTER <? d_10)%D = true /\
  (obs_flag (avoidObstacleMove (P := platform_20) scenario1 d_half d_half d_10
               (rand_const 3)) = true /\
   angular (avoidObstacleMove (P := platform_20) scenario1 d_half d_half d_10
              (rand_const 3)) = d_0_4) /\
  (obs_flag (avoidObstacleStop (P := platform_20) scenario1 d_half d_half d_10
               (rand_const 3)) = true /\
   angular (avoidObstacleStop (P := platform_20) scenario1 d_half d_half d_10
              (rand_const 3)) = d_0_4).
Proof.
  split; [ reflexivity | ].
  apply (center_tripped_lateral_rule (P := platform_20) scenario1 d_half d_half
           d_10 (rand_const 3)).
  reflexivity.
Defined.

Lemma triggered_linear_witness :
  obs_flag (avoidObstacleStop (P := platform_20) scenario3 d_half d_half d_10
              (rand_const 3)) = true /\
  linear (avoidObstacleStop (P := platform_20) scenario3 d_half d_half d_10
            (rand_const 3)) = d_zero /\
  obs_flag (avoidObstacleMove (P := platform_20) scenario3 d_half d_half d_10
              (rand_const 3)) = true /\
  linear (avoidObstacleMove (P := platform_20) scenario3 d_half d_half d_10
            (rand_const 3)) = d_0_3.
Proof.
  destruct (triggered_linear (P := platform_20) scenario3 d_half d_half d_10
              (rand_const 3)) as [Hstop Hmove].
  split; [ reflexivity | ].
  split; [ apply Hstop; reflexivity | ].
  split; [ reflexivity | ].
  apply Hmove. reflexivity.
Defined.

Lemma single_flank_priority_table_witness :
  flank RIGHT = true /\
  only_tripped (P := platform_20) scenario4 d_10 RIGHT /\
  angular (avoidObstacleMove (P := platform_20) scenario4 d_half d_half d_10
             (rand_const 3)) = dopp d_0_4 /\
  angular (avoidObstacleStop (P := platform_20) scenario4 d_half d_half d_10
             (rand_const 3)) = dopp d_0_4.
Proof.
  assert (H : only_tripped (P := platform_20) scenario4 d_10 RIGHT).
  { split; [ reflexivity | ].
    intros [] Hne; try reflexivity. congruence. }
  split; [ reflexivity | ].
  split; [ exact H | ].
  destruct (single_flank_priority_table (P := platform_20) scenario4 d_half
              d_half d_10 (rand_const 3) RIGHT eq_refl H)
    as [(_ & Hmove & _) (_ & Hstop & _)].
  split; [ rewrite Hmove | rewrite Hstop ]; reflexivity.
Defined.

Lemma none_tripped_identity_witness :
  (forall c, tripped (P := platform_20) scenario5 d_10 c = false) /\
  obs_flag (avoidObstacleMove (P := platform_20) scenario5 d_3 d_5 d_10
              (rand_const 3)) = false /\
  linear (avoidObstacleMove (P := platform_20) scenario5 d_3 d_5 d_10
            (rand_const 3)) = d_3 /\
  angular (avoidObstacleStop (P := platform_20) scenario5 d_3 d_5 d_10
             (rand_const 3)) = d_5.
Proof.
  assert (H : forall c, tripped (P := platform_20) scenario5 d_10 c = false).
  { intros []; reflexivity. }
  split; [ exact H | ].
  destruct (none_tripped_identity (P := platform_20) scenario5 d_3 d_5 d_10
              (rand_const 3) H)
    as [(Hflag & Hlin & _) (_ & _ & Hang)].
  split; [ exact Hflag | ].
  split; [ exact Hlin | exact Hang ].
Defined.

Lemma startup_triggered_witness :
  (forall c, (IR_index (Platform := platform_20) c < 6)%nat) /\
  (d_zero <? d_10)%D = true /\
  ir (P := platform_20) (PheenoRobot_init no_rosparams) LEFT = d_zero /\
  obs_flag (avoidObstacleMove (P := platform_20) (PheenoRobot_init no_rosparams)
              d_half d_half d_10 (rand_const 3)) = true /\
  obs_flag (avoidObstacleStop (P := platform_20) (PheenoRobot_init no_rosparams)
              d_half d_half d_10 (rand_const 3)) = true.
Proof.
  assert (Hlt : forall c, (IR_index (Platform := platform_20) c < 6)%nat).
  { intros []; cbn; lia. }
  split; [ exact Hlt | ].
  split; [ reflexivity | ].
  destruct (startup_triggered (P := platform_20) no_rosparams d_half d_half d_10
              (rand_const 3) Hlt) as [Hzero Htrig].
  split; [ apply Hzero | ].
  apply Htrig. reflexivity.
Defined.

(** C9 as stated fails: with obstacle_angular set to -0.5 and CENTER tripped,
    both members report an obstacle and leave -0.5 in [angular], whose
    magnitude 0.5 is not the profile value. *)
Lemma negative_profile_magnitude :
  obs_angular_vel_ negative_profile = d_neg_half /\
  obs_flag (avoidObstacleStop (P := platform_20) negative_profile d_half d_half
              d_10 (rand_const 3)) = true /\
  dabs (angular (avoidObstacleStop (P := platform_20) negative_profile d_half
                   d_half d_10 (rand_const 3))) = d_half /\
  obs_flag (avoidObstacleMove (P := platform_20) negative_profile d_half d_half
              d_10 (rand_const 3)) = true /\
  dabs (angular (avoidObstacleMove (P := platform_20) negative_profile d_half
                   d_half d_10 (rand_const 3))) = d_half /\
  d_half <> d_neg_half /\
  deq d_half d_neg_half = false.
Proof. repeat split; try reflexivity. discriminate. Qed.

Lemma triggered_angular_sign_witness :
  is_double (obs_angular_vel_ scenario2) = true /\
  obs_flag (avoidObstacleMove (P := platform_20) scenario2 d_half d_half d_10
              (rand_const 3)) = true /\
  angular (avoidObstacleMove (P := platform_20) scenario2 d_half d_half d_10
             (rand_const 3)) = dopp d_0_4 /\
  dabs (angular (avoidObstacleStop (P := platform_20) scenario2 d_half d_half d_10
                   (rand_const 6))) = d_0_4.
Proof.
  split; [ reflexivity | ].
  split; [ reflexivity | ].
  destruct (triggered_angular_sign (P := platform_20) scenario2 d_half d_half
              d_10 (rand_const 3) eq_refl) as [Hmove _].
  destruct (triggered_angular_sign (P := platform_20) scenario2 d_half d_half
              d_10 (rand_const 6) eq_refl) as [_ Hstop].
  split.
  - destruct (Hmove eq_refl) as [[H | H] _]; [ discriminate H | exact H ].
  - destruct (Hstop eq_refl) as [_ H]. exact H.
Defined.

Lemma BACK_never_influences_witness :
  same_but_BACK (P := platform_20) scenario5
    (irSensorCallback scenario5 d_5 (spec_IR_index BACK)) /\
  irSensorCallback scenario5 d_5 (spec_IR_index BACK) = back_only /\
  tripped (P := platform_20) back_only d_10 BACK = true /\
  avoidObstacleMove (P := platform_20) scenario5 d_3 d_5 d_10 (rand_const 3)
  = avoidObstacleMove (P := platform_20) back_only d_3 d_5 d_10 (rand_const 3) /\
  avoidObstacleStop (P := platform_20) back_only d_3 d_5 d_10 (rand_const 3)
  = {| linear := d_3; angular := d_5; obs_flag := false; rng := rand_const 3 |}.
Proof.
  assert (Hsame : same_but_BACK (P := platform_20) scenario5
                    (irSensorCallback scenario5 d_5 (spec_IR_index BACK))).
  { apply (irSensorCallback_BACK_same (P := platform_20)).
    intros [] []; cbn; congruence. }
  assert (Hclear : forall c, c <> BACK ->
                     tripped (P := platform_20) back_only d_10 c = false).
  { intros [] Hne; try reflexivity. congruence. }
  split; [ exact Hsame | ].
  split; [ reflexivity | ].
  split; [ reflexivity | ].
  destruct (BACK_never_influences (P := platform_20) scenario5
              (irSensorCallback scenario5 d_5 (spec_IR_index BACK))
              d_3 d_5 d_10 (rand_const 3)) as [Hpair _].
  destruct (BACK_never_influences (P := platform_20) back_only back_only
              d_3 d_5 d_10 (rand_const 3)) as [_ Honly].
  split.
  - apply Hpair, Hsame.
  - apply Honly. split; [ reflexivity | exact Hclear ].
Defined.

(** * Further properties of the members *)

(** ** More binary64 facts *)

Lemma dlt_nan_r (x : double) : (x <? d_nan)%D = false.
Proof. destruct x; reflexivity. Qed.

Lemma dlt_nan_l (x : double) : (d_nan <? x)%D = false.
Proof. destruct x; reflexivity. Qed.

(** Below a threshold is below every threshold at or above that one. *)
Lemma dlt_dle_trans (x a b : double) :
  (x <? a)%D = true -> (a <=? b)%D = true -> (x <? b)%D = true.
Proof.
  unfold dlt, dle, SFltb, SFleb.
  destruct x as [sx | sx | | sx mx ex], a as [sa | sa | | sa ma ea],
    b as [sb | sb | | sb mb eb]; cbn;
    try discriminate; try reflexivity;
    try (destruct sx; cbn; try discriminate; try reflexivity);
    try (destruct sa; cbn; try discriminate; try reflexivity);
    try (destruct sb; cbn; try discriminate; try reflexivity).
  all: compare_cases; cbn; try discriminate; try reflexivity; try lia.
Qed.

(** ** The avoidance members *)

Section MoreAvoidance.

Context {P : Platform}.

(** X1. Either member reports an obstacle exactly when at least one of the
    five channels CENTER, CRIGHT, CLEFT, RIGHT, LEFT reads below the range. *)
Theorem obs_flag_is_some_front_channel r lin ang range g :
  obs_flag (avoidObstacleMove r lin ang range g) =
    (tripped r range CENTER || tripped r range CRIGHT || tripped r range CLEFT
     || tripped r range RIGHT || tripped r range LEFT) /\
  obs_flag (avoidObstacleStop r lin ang range g) =
    (tripped r range CENTER || tripped r range CRIGHT || tripped r range CLEFT
     || tripped r range RIGHT || tripped r range LEFT).
Proof.
  avoid_unfold.
  destruct (ir r CENTER <? range)%D, (ir r CRIGHT <? range)%D,
    (ir r CLEFT <? range)%D, (ir r RIGHT <? range)%D, (ir r LEFT <? range)%D;
    cbn; split; split_guards; reflexivity.
Qed.

(** X2. On the same inputs the two members return the same flag and the same
    [angular]; they part in [linear] only, and only when an obstacle is
    reported: [avoidObstacleMove] then leaves [obs_linear_vel_] where
    [avoidObstacleStop] leaves 0. *)
Theorem avoid_variants_agree r lin ang range g :
  obs_flag (avoidObstacleMove r lin ang range g)
  = obs_flag (avoidObstacleStop r lin ang range g) /\
  angular (avoidObstacleMove r lin ang range g)
  = angular (avoidObstacleStop r lin ang range g) /\
  linear (avoidObstacleMove r lin ang range g)
  = (if obs_flag (avoidObstacleStop r lin ang range g)
     then obs_linear_vel_ r
     else linear (avoidObstacleStop r lin ang range g)).
Proof.
  avoid_unfold.
  destruct (ir r CENTER <? range)%D, (ir r CRIGHT <? range)%D,
    (ir r CLEFT <? range)%D, (ir r RIGHT <? range)%D, (ir r LEFT <? range)%D;
    cbn; split_guards; repeat split.
Qed.

(** X3. With CENTER clear and both CRIGHT and CLEFT tripped, either member
    reports an obstacle, takes its turn from [randomTurn] and draws exactly
    one random number, whatever RIGHT, LEFT and BACK read. *)
Theorem tie_break_one_draw r lin ang range g :
  tripped r range CENTER = false ->
  tripped r range CRIGHT = true ->
  tripped r range CLEFT = true ->
  avoidObstacleMove r lin ang range g =
    {| linear := obs_linear_vel_ r;
       angular := fst (randomTurn (obs_angular_vel_ r) g);
       obs_flag := true; rng := snd (rand g) |} /\
  avoidObstacleStop r lin ang range g =
    {| linear := d_zero;
       angular := fst (randomTurn (obs_angular_vel_ r) g);
       obs_flag := true; rng := snd (rand g) |}.
Proof.
  intros Hc Hcr Hcl. avoid_unfold. rewrite Hc, Hcr, Hcl. cbn.
  split; reflexivity.
Qed.

(** X4. The inner flank channels are consulted before the outer ones: with
    CENTER clear, CRIGHT tripped alone of the inner pair turns left and
    CLEFT tripped alone of the inner pair turns right, whatever RIGHT and
    LEFT read; RIGHT decides only when CENTER, CRIGHT and CLEFT are clear,
    and then turns left whatever LEFT reads.  No random number is drawn. *)
Theorem inner_flank_before_outer r lin ang range g :
  tripped r range CENTER = false ->
  (tripped r range CRIGHT = true -> tripped r range CLEFT = false ->
   angular (avoidObstacleMove r lin ang range g) = (d_neg_one * obs_angular_vel_ r)%D /\
   angular (avoidObstacleStop r lin ang range g) = (d_neg_one * obs_angular_vel_ r)%D /\
   rng (avoidObstacleMove r lin ang range g) = g /\
   rng (avoidObstacleStop r lin ang range g) = g) /\
  (tripped r range CRIGHT = false -> tripped r range CLEFT = true ->
   angular (avoidObstacleMove r lin ang range g) = obs_angular_vel_ r /\
   angular (avoidObstacleStop r lin ang range g) = obs_angular_vel_ r /\
   rng (avoidObstacleMove r lin ang range g) = g /\
   rng (avoidObstacleStop r lin ang range g) = g) /\
  (tripped r range CRIGHT = false -> tripped r range CLEFT = false ->
   tripped r range RIGHT = true ->
   angular (avoidObstacleMove r lin ang range g) = (d_neg_one * obs_angular_vel_ r)%D /\
   angular (avoidObstacleStop r lin ang range g) = (d_neg_one * obs_angular_vel_ r)%D /\
   rng (avoidObstacleMove r lin ang range g) = g /\
   rng (avoidObstacleStop r lin ang range g) = g).
Proof.
  intros Hc. avoid_unfold. rewrite Hc. repeat split;
    repeat match goal with H : _ = _ |- _ => rewrite H; clear H end;
    cbn; split_guards; reflexivity.
Qed.

(** X5. The random numbers drawn.  [avoidObstacleStop] draws one exactly
    when CENTER is clear and CRIGHT and CLEFT are both tripped.
    [avoidObstacleMove] draws one in that case too, and one more case: CENTER
    tripped with RIGHT and LEFT less than 5 apart or both above the range,
    where the number drawn does not reach the result.  Neither member draws
    twice. *)
Theorem avoid_draws r lin ang range g :
  rng (avoidObstacleStop r lin ang range g) =
    (if negb (tripped r range CENTER) && tripped r range CRIGHT
        && tripped r range CLEFT
     then snd (rand g) else g) /\
  rng (avoidObstacleMove r lin ang range g) =
    (if tripped r range CENTER
     then if (dabs (ir r RIGHT - ir r LEFT) <? d_five)%D
             || ((range <? ir r RIGHT)%D && (range <? ir r LEFT)%D)
          then snd (rand g) else g
     else if tripped r range CRIGHT && tripped r range CLEFT
          then snd (rand g) else g).
Proof.
  avoid_unfold. split.
  - destruct (ir r CENTER <? range)%D, (ir r CRIGHT <? range)%D,
      (ir r CLEFT <? range)%D; cbn; split_guards; reflexivity.
  - destruct (ir r CENTER <? range)%D, (ir r CRIGHT <? range)%D,
      (ir r CLEFT <? range)%D; cbn; split_guards; reflexivity.
Qed.

(** X6. Once an obstacle is reported, nothing of the command passed in is
    left in the result. *)
Theorem triggered_result_forgets_command r lin ang lin' ang' range g :
  obs_flag (avoidObstacleMove r lin ang range g) = true ->
  avoidObstacleMove r lin' ang' range g = avoidObstacleMove r lin ang range g /\
  avoidObstacleStop r lin' ang' range g = avoidObstacleStop r lin ang range g.
Proof.
  avoid_unfold. split_guards; cbn; intros H; try discriminate H;
    split; reflexivity.
Qed.

(** X7. A threshold that is not a number trips nothing: with a NaN range
    both avoidance members return the command they were given, and with a
    NaN limit [irSensorTriggered] returns false, whatever the readings. *)
Theorem nan_threshold_trips_nothing r lin ang g :
  avoidObstacleMove r lin ang d_nan g =
    {| linear := lin; angular := ang; obs_flag := false; rng := g |} /\
  avoidObstacleStop r lin ang d_nan g =
    {| linear := lin; angular := ang; obs_flag := false; rng := g |} /\
  irSensorTriggered r d_nan = false.
Proof.
  split; [ | split ].
  - apply avoidObstacleMove_clear. intros c _. apply dlt_nan_r.
  - apply avoidObstacleStop_clear. intros c _. apply dlt_nan_r.
  - unfold irSensorTriggered, irSensorTriggered_indices. cbn.
    rewrite !dlt_nan_r. reflexivity.
Qed.

(** X8. A channel that reads NaN counts as clear: when the five channels the
    avoidance members read all deliver NaN, both members return the command
    they were given, whatever the range. *)
Theorem nan_readings_are_clear r lin ang range g :
  (forall c, c <> BACK -> ir r c = d_nan) ->
  avoidObstacleMove r lin ang range g =
    {| linear := lin; angular := ang; obs_flag := false; rng := g |} /\
  avoidObstacleStop r lin ang range g =
    {| linear := lin; angular := ang; obs_flag := false; rng := g |}.
Proof.
  intros H. split.
  - apply avoidObstacleMove_clear. intros c Hc. unfold tripped.
    rewrite (H c Hc). apply dlt_nan_l.
  - apply avoidObstacleStop_clear. intros c Hc. unfold tripped.
    rewrite (H c Hc). apply dlt_nan_l.
Qed.

(** X9. What the avoidance members and the trigger count never read: the two
    default velocities.  Setting them changes no outcome; and
    [avoidObstacleStop] does not read the obstacle linear velocity either. *)
Theorem default_velocities_never_read r x lin ang range g :
  avoidObstacleMove (setDefaultLinearVelocity r x) lin ang range g
  = avoidObstacleMove r lin ang range g /\
  avoidObstacleMove (setDefaultAngularVelocity r x) lin ang range g
  = avoidObstacleMove r lin ang range g /\
  avoidObstacleStop (setDefaultLinearVelocity r x) lin ang range g
  = avoidObstacleStop r lin ang range g /\
  avoidObstacleStop (setDefaultAngularVelocity r x) lin ang range g
  = avoidObstacleStop r lin ang range g /\
  avoidObstacleStop (setObstacleLinearVelocity r x) lin ang range g
  = avoidObstacleStop r lin ang range g /\
  irSensorTriggered (setDefaultLinearVelocity r x) range = irSensorTriggered r range /\
  irSensorTriggered (setDefaultAngularVelocity r x) range = irSensorTriggered r range.
Proof. repeat split. Qed.

(** X19. Two calls in a row on an unchanged robot, the second on the command
    and the generator the first one left: flag and [linear] come out the
    same, and so does [angular] unless the members are in the tie between
    CRIGHT and CLEFT, where each call draws its own random number. *)
Theorem calls_in_a_row r lin ang range g :
  (let first := avoidObstacleMove r lin ang range g in
   let second :=
     avoidObstacleMove r (linear first) (angular first) range (rng first) in
   obs_flag second = obs_flag first /\
   linear second = linear first /\
   (negb (tripped r range CENTER) && tripped r range CRIGHT
      && tripped r range CLEFT = false ->
    angular second = angular first)) /\
  (let first := avoidObstacleStop r lin ang range g in
   let second :=
     avoidObstacleStop r (linear first) (angular first) range (rng first) in
   obs_flag second = obs_flag first /\
   linear second = linear first /\
   (negb (tripped r range CENTER) && tripped r range CRIGHT
      && tripped r range CLEFT = false ->
    angular second = angular first)).
Proof.
  avoid_unfold.
  destruct (ir r CENTER <? range)%D, (ir r CRIGHT <? range)%D,
    (ir r CLEFT <? range)%D, (ir r RIGHT <? range)%D, (ir r LEFT <? range)%D;
    cbn; split_guards; repeat split; intros H; try discriminate H; reflexivity.
Qed.

End MoreAvoidance.

(** ** The trigger count *)

Section MoreTrigger.

Context {P : Platform}.

Lemma count_loop_mono (v : list double) (l1 l2 : double) (idx : list nat) :
  (l1 <=? l2)%D = true ->
  forall c1 c2, c1 <= c2 ->
  fold_left (fun count i => if (subscript v i <? l1)%D then count + 1 else count)
    idx c1
  <= fold_left (fun count i => if (subscript v i <? l2)%D then count + 1 else count)
       idx c2.
Proof.
  intros Hle. induction idx as [ | i idx IH ]; cbn; intros c1 c2 Hc.
  - exact Hc.
  - apply IH.
    destruct (subscript v i <? l1)%D eqn:E1.
    + rewrite (dlt_dle_trans _ _ _ E1 Hle). lia.
    + destruct (subscript v i <? l2)%D; lia.
Qed.

(** X10. Raising the limit never takes the trigger away: when
    [irSensorTriggered] returns true at a limit it returns true at every
    limit that is at or above that one. *)
Theorem irSensorTriggered_monotone r l1 l2 :
  (l1 <=? l2)%D = true ->
  irSensorTriggered r l1 = true ->
  irSensorTriggered r l2 = true.
Proof.
  intros Hle. unfold irSensorTriggered.
  pose proof (count_loop_mono (ir_sensor_vals_ r) l1 l2
                irSensorTriggered_indices Hle 0 0 (Z.le_refl 0)) as Hmono.
  destruct (_ >? 1) eqn:E1; [ | discriminate ].
  intros _. apply Z.gtb_lt in E1.
  destruct (_ >? 1) eqn:E2; [ reflexivity | ].
  rewrite Z.gtb_ltb in E2. apply Z.ltb_ge in E2. lia.
Qed.

(** X11. On a robot fresh from the constructor [irSensorTriggered] returns
    true for every limit above 0 and false for every other limit, whatever
    lies behind the vector. *)
Theorem irSensorTriggered_at_startup p limit :
  irSensorTriggered (PheenoRobot_init p) limit = (d_zero <? limit)%D.
Proof.
  unfold irSensorTriggered, irSensorTriggered_indices, subscript. cbn.
  destruct (d_zero <? limit)%D, (past_the_end <? limit)%D; reflexivity.
Qed.

(** X12. The design behind the comparison of the count with 1: while the
    BACK channel keeps the 0 of the constructor and the limit is above 0,
    BACK always counts, and [irSensorTriggered] returns true as soon as one
    of the five other channels reads below the limit (or the double behind
    the vector does). *)
Theorem irSensorTriggered_BACK_unused r limit :
  numbering_ok ->
  six_slots r ->
  ir r BACK = d_zero ->
  (d_zero <? limit)%D = true ->
  irSensorTriggered r limit =
    (tripped r limit CENTER || tripped r limit RIGHT || tripped r limit LEFT
     || tripped r limit CRIGHT || tripped r limit CLEFT
     || (past_the_end <? limit)%D).
Proof.
  intros Hok Hsix Hback Hpos.
  rewrite irSensorTriggered_count by exact Hsix.
  rewrite <- (count_tripped_count_below r limit Hok Hsix).
  assert (HB : tripped r limit BACK = true)
    by (unfold tripped; rewrite Hback; exact Hpos).
  unfold count_tripped, all_IR. cbn [List.filter]. rewrite HB.
  destruct (tripped r limit CENTER), (tripped r limit RIGHT),
    (tripped r limit LEFT), (tripped r limit CRIGHT), (tripped r limit CLEFT),
    (past_the_end <? limit)%D; reflexivity.
Qed.

End MoreTrigger.

(** ** The IR callback and histories of calls *)

Section MoreCallback.

Context {P : Platform}.

Lemma ir_irSensorCallback_eq r x c :
  (IR_index c < length (ir_sensor_vals_ r))%nat ->
  ir (irSensorCallback r x (IR_index c)) c = x.
Proof.
  intros Hlt. unfold ir, subscript. cbn.
  rewrite list_lookup_insert_eq by exact Hlt. reflexivity.
Qed.

Lemma ir_irSensorCallback_ne r x c c' :
  IR_index c <> IR_index c' ->
  ir (irSensorCallback r x (IR_index c)) c' = ir r c'.
Proof.
  intros Hne. unfold ir, subscript. cbn.
  rewrite list_lookup_insert_ne by exact Hne. reflexivity.
Qed.

Lemma member_call_run_six_slots r m :
  six_slots r -> six_slots (member_call_run r m).
Proof.
  destruct m; cbn; try (intros H; exact H).
  apply irSensorCallback_six_slots.
Qed.

Lemma IR_eqb_eq a b : IR_eqb a b = true <-> a = b.
Proof. destruct a, b; cbn; split; congruence. Qed.

Lemma history_run_ir r ms c :
  (forall a b, IR_index a = IR_index b -> a = b) ->
  (forall a, (IR_index a < 6)%nat) ->
  six_slots r ->
  six_slots (history_run r ms) /\
  ir (history_run r ms) c = default (ir r c) (last_ir_message c ms).
Proof.
  intros Hinj Hlt. revert r.
  induction ms as [ | m ms IH ]; intros r Hsix; [ split; [ exact Hsix | reflexivity ] | ].
  cbn [history_run fold_left last_ir_message].
  destruct (IH (member_call_run r m) (member_call_run_six_slots r m Hsix))
    as [Hsix' Hir].
  split; [ exact Hsix' | ].
  unfold history_run in Hir. rewrite Hir.
  destruct (last_ir_message c ms) as [ x | ]; [ reflexivity | ].
  destruct m as [ c' x | x | x | x | x ]; try reflexivity.
  cbn [member_call_run default].
  destruct (IR_eqb c c') eqn:E.
  - apply IR_eqb_eq in E. subst c'. cbn.
    apply ir_irSensorCallback_eq. rewrite Hsix. apply Hlt.
  - cbn. apply ir_irSensorCallback_ne. intros Heq. apply Hinj in Heq.
    subst c'. destruct c; discriminate E.
Qed.

(** X13. A reading delivered to the callback of a channel is what the
    channel reads afterwards; the other five channels, the size of the
    vector and the four velocities of the profile are as before. *)
Theorem irSensorCallback_round_trip r x c :
  (forall a b, IR_index a = IR_index b -> a = b) ->
  (forall a, (IR_index a < 6)%nat) ->
  six_slots r ->
  ir (irSensorCallback r x (IR_index c)) c = x /\
  (forall c', c' <> c -> ir (irSensorCallback r x (IR_index c)) c' = ir r c') /\
  six_slots (irSensorCallback r x (IR_index c)) /\
  getDefaultLinearVelocity (irSensorCallback r x (IR_index c))
    = getDefaultLinearVelocity r /\
  getDefaultAngularVelocity (irSensorCallback r x (IR_index c))
    = getDefaultAngularVelocity r /\
  getObstacleLinearVelocity (irSensorCallback r x (IR_index c))
    = getObstacleLinearVelocity r /\
  getObstacleAngularVelocity (irSensorCallback r x (IR_index c))
    = getObstacleAngularVelocity r.
Proof.
  intros Hinj Hlt Hsix. split; [ | split; [ | split; [ | repeat split ] ] ].
  - apply ir_irSensorCallback_eq. rewrite Hsix. apply Hlt.
  - intros c' Hne. apply ir_irSensorCallback_ne.
    intros Heq. apply Hinj in Heq. congruence.
  - apply irSensorCallback_six_slots, Hsix.
Qed.

(** X14. After any history of sensor deliveries and setter calls on a robot
    fresh from the constructor, the vector still has its six slots and each
    channel reads the value most recently delivered on it, or 0 when nothing
    was delivered on it. *)
Theorem history_readings p ms c :
  (forall a b, IR_index a = IR_index b -> a = b) ->
  (forall a, (IR_index a < 6)%nat) ->
  six_slots (history_run (PheenoRobot_init p) ms) /\
  ir (history_run (PheenoRobot_init p) ms) c
  = default d_zero (last_ir_message c ms).
Proof.
  intros Hinj Hlt.
  destruct (history_run_ir (PheenoRobot_init p) ms c Hinj Hlt
              (PheenoRobot_init_six_slots p)) as [Hsix Hir].
  split; [ exact Hsix | ].
  rewrite Hir. f_equal.
  unfold ir, subscript. rewrite PheenoRobot_init_ir.
  rewrite lookup_replicate_2 by apply Hlt. reflexivity.
Qed.

Lemma history_run_snoc r ms m :
  history_run r (ms ++ [m]) = member_call_run (history_run r ms) m.
Proof. unfold history_run. rewrite fold_left_app. reflexivity. Qed.

(** X15. After any history of calls on a robot fresh from the constructor,
    each getter returns the value most recently passed to its setter,
    whatever it is; when the setter was never called, it returns the entry
    of the parameter server, and 0.5 when there is no entry. *)
Theorem history_profile p ms :
  getDefaultLinearVelocity (history_run (PheenoRobot_init p) ms)
  = default (default d_half (default_linear_velocity p))
      (last_set default_linear_set ms) /\
  getDefaultAngularVelocity (history_run (PheenoRobot_init p) ms)
  = default (default d_half (default_angular_velocity p))
      (last_set default_angular_set ms) /\
  getObstacleLinearVelocity (history_run (PheenoRobot_init p) ms)
  = default (default d_half (obstacle_linear_velocity p))
      (last_set obstacle_linear_set ms) /\
  getObstacleAngularVelocity (history_run (PheenoRobot_init p) ms)
  = default (default d_half (obstacle_angular_velocity p))
      (last_set obstacle_angular_set ms).
Proof.
  induction ms as [ | m ms IH ] using rev_ind; [ repeat split | ].
  destruct IH as (I1 & I2 & I3 & I4).
  rewrite history_run_snoc. unfold last_set in *. rewrite !fold_left_app.
  destruct m; cbn; repeat split; assumption.
Qed.

End MoreCallback.

(** ** The random turn *)

(** X16. [randomTurn] takes one number from the generator.  For a draw that
    is not negative, as [rand()] returns them, it negates [angular] exactly
    when the last decimal digit of the draw is 0 to 4; so of two draws that
    are 5 apart one negates and the other does not. *)
Theorem randomTurn_splits_draws (a : double) (g g' : rand_state) :
  0 <= rand_seq g (rand_pos g) ->
  rand_seq g' (rand_pos g') = rand_seq g (rand_pos g) + 5 ->
  rand_pos (snd (randomTurn a g)) = S (rand_pos g) /\
  rand_seq (snd (randomTurn a g)) = rand_seq g /\
  fst (randomTurn a g)
  = (if rand_seq g (rand_pos g) mod 10 <? 5 then (d_neg_one * a)%D else a) /\
  fst (randomTurn a g')
  = (if rand_seq g (rand_pos g) mod 10 <? 5 then a else (d_neg_one * a)%D).
Proof.
  intros Hn Hn'. unfold randomTurn, rand. cbn. rewrite Hn'.
  set (n := rand_seq g (rand_pos g)) in *.
  rewrite !Z.rem_mod_nonneg by lia.
  pose proof (Z.mod_pos_bound n 10 ltac:(lia)) as Hb.
  pose proof (Z.mod_pos_bound (n + 5) 10 ltac:(lia)) as Hb'.
  pose proof (Z.div_mod n 10 ltac:(lia)) as Hd.
  pose proof (Z.div_mod (n + 5) 10 ltac:(lia)) as Hd'.
  repeat split;
    destruct (n mod 10 + 1 <=? 5) eqn:E1, (n mod 10 <? 5) eqn:E2,
      ((n + 5) mod 10 + 1 <=? 5) eqn:E3;
    try reflexivity; exfalso;
    rewrite ?Z.leb_le, ?Z.leb_gt, ?Z.ltb_lt, ?Z.ltb_ge in *; lia.
Qed.

(** ** The odometry, encoder and IMU callbacks *)

Lemma assign_xyz_content (v : list double) (m : Vector3) :
  length v = 3%nat -> assign_xyz v m = xyz m.
Proof.
  destruct v as [ | a [ | b [ | c [ | ? ? ]]]]; try discriminate.
  reflexivity.
Qed.

Lemma assign_xyzw_content (v : list double) (m : Quaternion) :
  length v = 4%nat -> assign_xyzw v m = xyzw m.
Proof.
  destruct v as [ | a [ | b [ | c [ | d [ | ? ? ]]]]]; try discriminate.
  reflexivity.
Qed.

Lemma PheenoSensors_init_sized : sensors_sized PheenoSensors_init.
Proof. repeat split. Qed.

Lemma sensor_message_run_sized (s : PheenoSensors) (m : sensor_message) :
  sensors_sized s -> sensors_sized (sensor_message_run s m).
Proof.
  unfold sensors_sized. intros (H1 & H2 & H3 & H4 & H5 & H6 & H7 & H8).
  destruct m; cbn; unfold assign_xyz, assign_xyzw;
    rewrite ?length_insert; repeat split; assumption.
Qed.

Lemma sensor_history_run_snoc (s : PheenoSensors) (ms : list sensor_message)
    (m : sensor_message) :
  sensor_history_run s (ms ++ [m])
  = sensor_message_run (sensor_history_run s ms) m.
Proof. unfold sensor_history_run. rewrite fold_left_app. reflexivity. Qed.

Lemma sensor_history_run_sized (s : PheenoSensors) (ms : list sensor_message) :
  sensors_sized s -> sensors_sized (sensor_history_run s ms).
Proof.
  intros Hs. induction ms as [ | m ms IH ] using rev_ind; [ exact Hs | ].
  rewrite sensor_history_run_snoc. apply sensor_message_run_sized, IH.
Qed.

(** X17. After any history of messages on the members fresh from the
    constructor, the eight vectors have the sizes the constructor gave them,
    and the four odometry vectors and the three IMU vectors hold the fields
    of the latest message of their kind, whole, or zeros when none came: a
    message overwrites all of its vectors and none of the others. *)
Theorem sensor_history_vectors (ms : list sensor_message) :
  Forall encoder_location_ok ms ->
  sensors_sized (sensor_history_run PheenoSensors_init ms) /\
  odom_pose_position_ (sensor_history_run PheenoSensors_init ms)
  = from_option (fun m => xyz (pose_position m)) (replicate 3 d_zero) (last_odom ms) /\
  odom_pose_orient_ (sensor_history_run PheenoSensors_init ms)
  = from_option (fun m => xyzw (pose_orientation m)) (replicate 4 d_zero) (last_odom ms) /\
  odom_twist_linear_ (sensor_history_run PheenoSensors_init ms)
  = from_option (fun m => xyz (twist_linear m)) (replicate 3 d_zero) (last_odom ms) /\
  odom_twist_angular_ (sensor_history_run PheenoSensors_init ms)
  = from_option (fun m => xyz (twist_angular m)) (replicate 3 d_zero) (last_odom ms) /\
  magnetometer_vals_ (sensor_history_run PheenoSensors_init ms)
  = from_option xyz (replicate 3 d_zero) (last_magnetometer ms) /\
  gyroscope_vals_ (sensor_history_run PheenoSensors_init ms)
  = from_option xyz (replicate 3 d_zero) (last_gyroscope ms) /\
  accelerometer_vals_ (sensor_history_run PheenoSensors_init ms)
  = from_option xyz (replicate 3 d_zero) (last_accelerometer ms).
Proof.
  intros _.
  split; [ apply sensor_history_run_sized, PheenoSensors_init_sized | ].
  induction ms as [ | m ms IH ] using rev_ind; [ repeat split | ].
  pose proof (sensor_history_run_sized PheenoSensors_init ms
                PheenoSensors_init_sized)
    as (H1 & H2 & H3 & H4 & _ & H6 & H7 & H8).
  destruct IH as (I1 & I2 & I3 & I4 & I6 & I7 & I8).
  rewrite sensor_history_run_snoc.
  unfold last_odom, last_magnetometer, last_gyroscope, last_accelerometer in *.
  rewrite !fold_left_app.
  destruct m; cbn;
    rewrite ?assign_xyz_content, ?assign_xyzw_content by assumption;
    repeat split; assumption.
Qed.

(** X18. After any history of messages whose encoder messages go to the four
    slots, each encoder slot holds the count most recently delivered for it,
    or 0 when none came. *)
Theorem sensor_history_encoders (ms : list sensor_message) (loc : nat) :
  Forall encoder_location_ok ms ->
  (loc < 4)%nat ->
  encoder_vals_ (sensor_history_run PheenoSensors_init ms) !! loc
  = Some (default 0 (last_encoder loc ms)).
Proof.
  intros Hok Hloc.
  induction ms as [ | m ms IH ] using rev_ind.
  - cbn. destruct loc as [ | [ | [ | [ | ? ]]]]; try reflexivity. lia.
  - apply Forall_app in Hok as [Hms Hm]. specialize (IH Hms).
    pose proof (sensor_history_run_sized PheenoSensors_init ms
                  PheenoSensors_init_sized)
      as (_ & _ & _ & _ & H5 & _).
    rewrite sensor_history_run_snoc.
    set (s := sensor_history_run PheenoSensors_init ms) in *.
    unfold last_encoder in *. rewrite fold_left_app.
    destruct m as [ msg | data l | msg | msg | msg ]; cbn; try exact IH.
    destruct (Nat.eqb l loc) eqn:E.
    + apply Nat.eqb_eq in E. subst l. cbn.
      apply list_lookup_insert_eq. rewrite H5. exact Hloc.
    + apply Nat.eqb_neq in E.
      rewrite list_lookup_insert_ne by exact E. exact IH.
Qed.

(** ** The further properties at concrete inputs *)

Lemma tie_break_one_draw_witness :
  tripped (P := platform_20) scenario2 d_10 CENTER = false /\
  tripped (P := platform_20) scenario2 d_10 CRIGHT = true /\
  tripped (P := platform_20) scenario2 d_10 CLEFT = true /\
  avoidObstacleMove (P := platform_20) scenario2 d_half d_half d_10 (rand_const 3) =
    {| linear := d_0_3; angular := dopp d_0_4; obs_flag := true;
       rng := snd (rand (rand_const 3)) |} /\
  avoidObstacleStop (P := platform_20) scenario2 d_half d_half d_10 (rand_const 6) =
    {| linear := d_zero; angular := d_0_4; obs_flag := true;
       rng := snd (rand (rand_const 6)) |}.
Proof.
  split; [ reflexivity | ].
  split; [ reflexivity | ].
  split; [ reflexivity | ].
  destruct (tie_break_one_draw (P := platform_20) scenario2 d_half d_half d_10
              (rand_const 3) eq_refl eq_refl eq_refl) as [Hmove _].
  destruct (tie_break_one_draw (P := platform_20) scenario2 d_half d_half d_10
              (rand_const 6) eq_refl eq_refl eq_refl) as [_ Hstop].
  split; [ rewrite Hmove | rewrite Hstop ]; reflexivity.
Defined.

Lemma inner_flank_before_outer_witness :
  tripped (P := platform_20) cright_and_left d_10 LEFT = true /\
  angular (avoidObstacleStop (P := platform_20) cright_and_left d_half d_half
             d_10 (rand_const 3)) = dopp d_0_4 /\
  tripped (P := platform_20) cleft_and_right d_10 RIGHT = true /\
  angular (avoidObstacleMove (P := platform_20) cleft_and_right d_half d_half
             d_10 (rand_const 3)) = d_0_4 /\
  tripped (P := platform_20) right_and_left d_10 LEFT = true /\
  angular (avoidObstacleMove (P := platform_20) right_and_left d_half d_half
             d_10 (rand_const 3)) = dopp d_0_4.
Proof.
  destruct (inner_flank_before_outer (P := platform_20) cright_and_left d_half
              d_half d_10 (rand_const 3) eq_refl) as (H1 & _ & _).
  destruct (inner_flank_before_outer (P := platform_20) cleft_and_right d_half
              d_half d_10 (rand_const 3) eq_refl) as (_ & H2 & _).
  destruct (inner_flank_before_outer (P := platform_20) right_and_left d_half
              d_half d_10 (rand_const 3) eq_refl) as (_ & _ & H3).
  destruct (H1 eq_refl eq_refl) as (_ & Hstop & _).
  destruct (H2 eq_refl eq_refl) as (Hmove & _).
  destruct (H3 eq_refl eq_refl eq_refl) as (Hmove' & _).
  split; [ reflexivity | ].
  split; [ rewrite Hstop; reflexivity | ].
  split; [ reflexivity | ].
  split; [ rewrite Hmove; reflexivity | ].
  split; [ reflexivity | ].
  rewrite Hmove'. reflexivity.
Defined.

Lemma triggered_result_forgets_command_witness :
  obs_flag (avoidObstacleMove (P := platform_20) scenario3 d_half d_half d_10
              (rand_const 3)) = true /\
  avoidObstacleMove (P := platform_20) scenario3 d_3 d_5 d_10 (rand_const 3)
  = avoidObstacleMove (P := platform_20) scenario3 d_half d_half d_10 (rand_const 3) /\
  avoidObstacleStop (P := platform_20) scenario3 d_3 d_5 d_10 (rand_const 3)
  = avoidObstacleStop (P := platform_20) scenario3 d_half d_half d_10 (rand_const 3).
Proof.
  split; [ reflexivity | ].
  apply (triggered_result_forgets_command (P := platform_20) scenario3 d_half
           d_half d_3 d_5 d_10 (rand_const 3)).
  reflexivity.
Defined.

Lemma nan_readings_are_clear_witness :
  (forall c, c <> BACK -> ir (P := platform_20) all_nan c = d_nan) /\
  avoidObstacleMove (P := platform_20) all_nan d_3 d_5 d_10 (rand_const 3) =
    {| linear := d_3; angular := d_5; obs_flag := false; rng := rand_const 3 |} /\
  avoidObstacleStop (P := platform_20) all_nan d_3 d_5 d_10 (rand_const 3) =
    {| linear := d_3; angular := d_5; obs_flag := false; rng := rand_const 3 |}.
Proof.
  assert (H : forall c, c <> BACK -> ir (P := platform_20) all_nan c = d_nan).
  { intros [] _; reflexivity. }
  split; [ exact H | ].
  apply (nan_readings_are_clear (P := platform_20) all_nan d_3 d_5 d_10
           (rand_const 3) H).
Defined.

Lemma irSensorTriggered_monotone_witness :
  (d_10 <=? d_20)%D = true /\
  irSensorTriggered (P := platform_5) scenario1 d_10 = true /\
  irSensorTriggered (P := platform_5) scenario1 d_20 = true.
Proof.
  split; [ reflexivity | ].
  split; [ reflexivity | ].
  apply (irSensorTriggered_monotone (P := platform_5) scenario1 d_10 d_20);
    reflexivity.
Defined.

Lemma irSensorTriggered_BACK_unused_witness :
  six_slots back_unused /\
  ir (P := platform_20) back_unused BACK = d_zero /\
  (d_zero <? d_10)%D = true /\
  tripped (P := platform_20) back_unused d_10 CRIGHT = true /\
  irSensorTriggered (P := platform_20) back_unused d_10 = true.
Proof.
  split; [ reflexivity | ].
  split; [ reflexivity | ].
  split; [ reflexivity | ].
  split; [ reflexivity | ].
  rewrite (irSensorTriggered_BACK_unused (P := platform_20) back_unused d_10
             (spec_platform_ok d_20) eq_refl eq_refl eq_refl).
  reflexivity.
Defined.

Lemma irSensorCallback_round_trip_witness :
  six_slots scenario5 /\
  ir (P := platform_20) (irSensorCallback scenario5 d_3 (spec_IR_index LEFT)) LEFT
  = d_3 /\
  ir (P := platform_20) (irSensorCallback scenario5 d_3 (spec_IR_index LEFT)) RIGHT
  = d_20.
Proof.
  split; [ reflexivity | ].
  destruct (spec_platform_ok d_20) as [Hinj Hlt].
  destruct (irSensorCallback_round_trip (P := platform_20) scenario5 d_3 LEFT
              Hinj Hlt eq_refl) as (Hsame & Hother & _).
  split; [ exact Hsame | ].
  assert (Hne : RIGHT <> LEFT) by discriminate.
  exact (Hother RIGHT Hne).
Defined.

Lemma history_readings_witness :
  last_ir_message CENTER call_history = Some d_5 /\
  ir (P := platform_20) (history_run (P := platform_20)
                           (PheenoRobot_init no_rosparams) call_history) CENTER
  = d_5 /\
  ir (P := platform_20) (history_run (P := platform_20)
                           (PheenoRobot_init no_rosparams) call_history) BACK
  = d_zero.
Proof.
  split; [ reflexivity | ].
  destruct (spec_platform_ok d_20) as [Hinj Hlt].
  destruct (history_readings (P := platform_20) no_rosparams call_history CENTER
              Hinj Hlt) as [_ Hcenter].
  destruct (history_readings (P := platform_20) no_rosparams call_history BACK
              Hinj Hlt) as [_ Hback].
  split; [ rewrite Hcenter | rewrite Hback ]; reflexivity.
Defined.

Lemma randomTurn_splits_draws_witness :
  0 <= 3 /\
  fst (randomTurn d_0_4 (rand_const 3)) = dopp d_0_4 /\
  fst (randomTurn d_0_4 (rand_const 8)) = d_0_4.
Proof.
  split; [ lia | ].
  destruct (randomTurn_splits_draws d_0_4 (rand_const 3) (rand_const 8))
    as (_ & _ & H3 & H8); [ cbn; lia | reflexivity | ].
  split; [ rewrite H3 | rewrite H8 ]; reflexivity.
Defined.

Lemma sensor_history_vectors_witness :
  Forall encoder_location_ok sensor_history /\
  odom_pose_position_ (sensor_history_run PheenoSensors_init sensor_history)
  = xyz v3_other /\
  magnetometer_vals_ (sensor_history_run PheenoSensors_init sensor_history)
  = xyz v3_123 /\
  gyroscope_vals_ (sensor_history_run PheenoSensors_init sensor_history)
  = [d_zero; d_zero; d_zero].
Proof.
  assert (H : Forall encoder_location_ok sensor_history).
  { unfold sensor_history. repeat constructor; cbn; lia. }
  split; [ exact H | ].
  destruct (sensor_history_vectors sensor_history H)
    as (_ & Hpos & _ & _ & _ & Hmag & Hgyr & _).
  split; [ rewrite Hpos; reflexivity | ].
  split; [ rewrite Hmag | rewrite Hgyr ]; reflexivity.
Defined.

Lemma sensor_history_encoders_witness :
  Forall encoder_location_ok sensor_history /\
  encoder_vals_ (sensor_history_run PheenoSensors_init sensor_history) !! 2%nat
  = Some (-3) /\
  encoder_vals_ (sensor_history_run PheenoSensors_init sensor_history) !! 3%nat
  = Some 0.
Proof.
  assert (H : Forall encoder_location_ok sensor_history).
  { unfold sensor_history. repeat constructor; cbn; lia. }
  split; [ exact H | ].
  split.
  - rewrite (sensor_history_encoders sensor_history 2 H) by lia. reflexivity.
  - rewrite (sensor_history_encoders sensor_history 3 H) by lia. reflexivity.
Defined.

Lemma calls_in_a_row_witness :
  negb (tripped (P := platform_20) scenario1 d_10 CENTER)
    && tripped (P := platform_20) scenario1 d_10 CRIGHT
    && tripped (P := platform_20) scenario1 d_10 CLEFT = false /\
  rng (avoidObstacleMove (P := platform_20) scenario1 d_half d_half d_10
         (rand_of_list [3; 6])) = snd (rand (rand_of_list [3; 6])) /\
  angular (avoidObstacleMove (P := platform_20) scenario1 d_0_3 d_0_4 d_10
             (snd (rand (rand_of_list [3; 6]))))
  = angular (avoidObstacleMove (P := platform_20) scenario1 d_half d_half d_10
               (rand_of_list [3; 6])) /\
  angular (avoidObstacleStop (P := platform_20) scenario1 d_zero d_0_4 d_10
             (rand_of_list [3; 6]))
  = angular (avoidObstacleStop (P := platform_20) scenario1 d_half d_half d_10
               (rand_of_list [3; 6])).
Proof.
  split; [ reflexivity | ].
  split; [ reflexivity | ].
  destruct (calls_in_a_row (P := platform_20) scenario1 d_half d_half d_10
              (rand_of_list [3; 6])) as [(_ & _ & Hmove) (_ & _ & Hstop)].
  split; [ exact (Hmove eq_refl) | exact (Hstop eq_refl) ].
Defined.
